(** * Shortfinder: the request router and the upstream normalizer

    A shallow embedding of [backend/youtube_api.py] (class [YouTubeAPI]) and
    [backend/main.py] (the Flask handlers), with the properties of the
    response-normalization layer and of the router stated over it.

    Upstream responses are JSON values as [request.execute()] hands them
    back; Python's subscription, [dict.get], iteration and truthiness are
    written out on them with the exceptions they raise.  The upstream
    service and Python's [int] conversion of a query-string value are the
    two things the repository does not contain: both are section variables. *)

From Stdlib Require Import String Ascii List ZArith Lia Bool.
Import ListNotations.
Local Open Scope string_scope.

(** ** JSON values, as the upstream client and [jsonify] exchange them *)

#[local] Set Warnings "-register-all".

Inductive json : Type :=
| JNull
| JBool (b : bool)
| JNum (n : Z)
| JStr (s : string)
| JList (l : list json)
| JDict (d : list (string * json)).

(** ** Exceptions and fallible computations *)

Inductive exn : Type :=
| KeyError (repr : string)        (* the repr of the missing key *)
| IndexError (msg : string)
| TypeError (msg : string)
| AttributeError (msg : string)
| HttpError (msg : string)        (* googleapiclient.errors.HttpError *)
| TransportError (msg : string).  (* any other Exception of the upstream call *)

(** [str(e)] *)
Definition str (e : exn) : string :=
  match e with
  | KeyError r => r
  | IndexError m | TypeError m | AttributeError m
  | HttpError m | TransportError m => m
  end.

Inductive result (A : Type) : Type :=
| Ok (a : A)
| Raise (e : exn).
Arguments Ok {A} a.
Arguments Raise {A} e.

Definition rbind {A B} (r : result A) (k : A -> result B) : result B :=
  match r with
  | Ok a => k a
  | Raise e => Raise e
  end.

Declare Scope result_scope.
Delimit Scope result_scope with result.
Notation "x <- e ;; k" := (rbind e (fun x => k))
  (at level 61, e at next level, right associativity) : result_scope.

(** ** Python on JSON values *)

Module Py.

Definition type_name (v : json) : string :=
  match v with
  | JNull => "NoneType"
  | JBool _ => "bool"
  | JNum _ => "int"
  | JStr _ => "str"
  | JList _ => "list"
  | JDict _ => "dict"
  end.

(** [bool(v)] *)
Definition truthy (v : json) : bool :=
  match v with
  | JNull => false
  | JBool b => b
  | JNum n => negb (n =? 0)%Z
  | JStr s => negb (s =? "")
  | JList l => match l with [] => false | _ => true end
  | JDict d => match d with [] => false | _ => true end
  end.

(** The entry of a dict under a key. *)
Fixpoint lookup (k : string) (d : list (string * json)) : option json :=
  match d with
  | [] => None
  | (k', v) :: d' => if k' =? k then Some v else lookup k d'
  end.

Definition quoted (k : string) : string := "'" ++ k ++ "'".

(** [v[k]] for a string key [k] *)
Definition getitem (v : json) (k : string) : result json :=
  match v with
  | JDict d =>
      match lookup k d with
      | Some x => Ok x
      | None => Raise (KeyError (quoted k))
      end
  | JStr _ => Raise (TypeError "string indices must be integers, not 'str'")
  | JList _ =>
      Raise (TypeError "list indices must be integers or slices, not str")
  | _ => Raise (TypeError (quoted (type_name v) ++ " object is not subscriptable"))
  end.

(** [v[0]] *)
Definition getitem0 (v : json) : result json :=
  match v with
  | JList (x :: _) => Ok x
  | JList [] => Raise (IndexError "list index out of range")
  | JStr (String c _) => Ok (JStr (String c ""))
  | JStr EmptyString => Raise (IndexError "string index out of range")
  | JDict _ => Raise (KeyError "0")
  | _ => Raise (TypeError (quoted (type_name v) ++ " object is not subscriptable"))
  end.

(** [d.get(k, default)] on a dict *)
Definition dict_get (d : list (string * json)) (k : string) (default : json)
  : json :=
  match lookup k d with
  | Some x => x
  | None => default
  end.

(** [v.get(k, default)]; [v.get(k)] is [get v k JNull] *)
Definition get (v : json) (k : string) (default : json) : result json :=
  match v with
  | JDict d => Ok (dict_get d k default)
  | _ =>
      Raise (AttributeError
               (quoted (type_name v) ++ " object has no attribute 'get'"))
  end.

(** The elements [for item in v] runs through. *)
Definition iter (v : json) : result (list json) :=
  match v with
  | JList l => Ok l
  | JDict d => Ok (map (fun kv => JStr (fst kv)) d)
  | JStr s => Ok (map (fun c => JStr (String c "")) (list_ascii_of_string s))
  | _ => Raise (TypeError (quoted (type_name v) ++ " object is not iterable"))
  end.

(** [v[k1][k2]...] *)
Fixpoint path (v : json) (ks : list string) : result json :=
  match ks with
  | [] => Ok v
  | k :: ks' => rbind (getitem v k) (fun x => path x ks')
  end.

(** [int(s)] on ASCII text: blanks (tab to carriage return, and the space)
    around an optional sign and decimal digits, single underscores allowed
    between digits, at most 4300 digits; [None] stands for [ValueError]. *)
Definition is_space (c : ascii) : bool :=
  let n := nat_of_ascii c in
  ((9 <=? n) && (n <=? 13) || (n =? 32))%nat.

Definition digit (c : ascii) : option Z :=
  let n := nat_of_ascii c in
  if ((48 <=? n) && (n <=? 57))%nat then Some (Z.of_nat n - 48)%Z else None.

Fixpoint lstrip (s : list ascii) : list ascii :=
  match s with
  | c :: s' => if is_space c then lstrip s' else s
  | [] => []
  end.

Definition strip (s : list ascii) : list ascii :=
  rev (lstrip (rev (lstrip s))).

(** The digits after the first one: [acc] is the value read so far. *)
Fixpoint digits (s : list ascii) (acc : Z) : option Z :=
  match s with
  | [] => Some acc
  | c :: s' =>
      match digit c with
      | Some d => digits s' (10 * acc + d)%Z
      | None =>
          if (nat_of_ascii c =? 95)%nat then
            match s' with
            | c' :: s'' =>
                match digit c' with
                | Some d => digits s'' (10 * acc + d)%Z
                | None => None
                end
            | [] => None
            end
          else None
      end
  end.

(** The limit on the digits of a decimal text ([sys.get_int_max_str_digits()]). *)
Definition max_str_digits : nat := 4300.

Definition count_digits (s : list ascii) : nat :=
  length (filter (fun c => match digit c with Some _ => true | None => false end)
                 s).

Definition unsigned (s : list ascii) : option Z :=
  match s with
  | c :: s' =>
      match digit c with
      | Some d =>
          match digits s' d with
          | Some n =>
              if (count_digits s <=? max_str_digits)%nat then Some n else None
          | None => None
          end
      | None => None
      end
  | [] => None
  end.

Definition int_ascii (s : string) : option Z :=
  match strip (list_ascii_of_string s) with
  | c :: s' =>
      if (nat_of_ascii c =? 45)%nat then option_map Z.opp (unsigned s')
      else if (nat_of_ascii c =? 43)%nat then unsigned s'
      else unsigned (c :: s')
  | [] => None
  end.

End Py.

Notation "v .[ k ]" := (Py.getitem v k) (at level 1, format "v .[ k ]").

(** ** The world a request runs in *)

(** One call of the upstream client: the resource's [list] method and its
    keyword arguments. *)
Inductive upstream_call : Type :=
| SearchList (kwargs : list (string * json))
| VideosList (kwargs : list (string * json)).

Record world : Type := mkWorld {
  calls : list upstream_call;   (* the upstream requests executed so far *)
  stdout : list string          (* the lines printed so far *)
}.

Definition M (A : Type) : Type := world -> result A * world.

Definition ret {A} (a : A) : M A := fun w => (Ok a, w).

Definition raise {A} (e : exn) : M A := fun w => (Raise e, w).

Definition bind {A B} (m : M A) (k : A -> M B) : M B :=
  fun w =>
    match m w with
    | (Ok a, w') => k a w'
    | (Raise e, w') => (Raise e, w')
    end.

Definition lift {A} (r : result A) : M A := fun w => (r, w).

(** [try: body except Exception as e: handler e] *)
Definition try_except {A} (body : M A) (handler : exn -> M A) : M A :=
  fun w =>
    match body w with
    | (Ok a, w') => (Ok a, w')
    | (Raise e, w') => handler e w'
    end.

Definition print (line : string) : M unit :=
  fun w => (Ok tt, mkWorld (calls w) (stdout w ++ [line])).

Declare Scope io_scope.
Delimit Scope io_scope with io.
Notation "x <- e ;; k" := (bind e (fun x => k))
  (at level 61, e at next level, right associativity) : io_scope.
Notation "e ;; k" := (bind e (fun _ => k))
  (at level 61, right associativity) : io_scope.

(** ** [youtube_api.py]: class [YouTubeAPI] *)

Module YouTubeAPI.

Section Client.

(** The upstream service: what [request.execute()] gives for a call, given
    how many calls were executed before it. *)
Variable upstream : nat -> upstream_call -> result json.

(** [request.execute()] *)
Definition execute (c : upstream_call) : M json :=
  fun w => (upstream (length (calls w)) c, mkWorld (calls w ++ [c]) (stdout w)).

(** [except HttpError as e: print(...); raise] *)
Definition except_HttpError {A} (e : exn) : M A :=
  match e with
  | HttpError _ =>
      (print ("An HTTP error occurred: " ++ str e) ;; raise e)%io
  | _ => raise e
  end.

(** The record one search item is normalized to, [video_id] being the
    item's truthy [videoId]. *)
Definition short_data (item video_id : json) : result json :=
  (snippet <- item.["snippet"] ;;
   title <- Py.get snippet "title" JNull ;;
   snippet <- item.["snippet"] ;;
   description <- Py.get snippet "description" JNull ;;
   snippet <- item.["snippet"] ;;
   thumbnails <- snippet.["thumbnails"] ;;
   default <- thumbnails.["default"] ;;
   thumbnail <- default.["url"] ;;
   snippet <- item.["snippet"] ;;
   channel_title <- Py.get snippet "channelTitle" JNull ;;
   snippet <- item.["snippet"] ;;
   published_at <- Py.get snippet "publishedAt" JNull ;;
   Ok (JDict [("video_id", video_id);
              ("title", title);
              ("description", description);
              ("thumbnail", thumbnail);
              ("channel_title", channel_title);
              ("published_at", published_at)]))%result.

(** [item["id"].get("videoId")] *)
Definition video_id_of (item : json) : result json :=
  (id <- item.["id"] ;;
   Py.get id "videoId" JNull)%result.

(** The loop of [search_shorts]: [shorts] is the list built so far, [items]
    what is left to iterate. *)
Fixpoint search_loop (items shorts : list json) : result (list json) :=
  match items with
  | [] => Ok shorts
  | item :: items' =>
      (video_id <- video_id_of item ;;
       if Py.truthy video_id then
         short <- short_data item video_id ;;
         search_loop items' (shorts ++ [short])
       else search_loop items' shorts)%result
  end.

(** What [for item in response.get("items", [])] runs through. *)
Definition response_items (response : json) : result (list json) :=
  (items <- Py.get response "items" (JList []) ;;
   Py.iter items)%result.

(** What [search_shorts] makes of the upstream response. *)
Definition search_normalize (response : json) : result (list json) :=
  (items <- response_items response ;;
   search_loop items [])%result.

Definition search_request (query : string) (max_results : Z) : upstream_call :=
  SearchList [("q", JStr query);
              ("part", JStr "snippet");
              ("maxResults", JNum max_results);
              ("videoDuration", JStr "short");
              ("videoType", JStr "video");
              ("order", JStr "relevance");
              ("type", JStr "video")].

Definition search_shorts (query : string) (max_results : Z) : M (list json) :=
  try_except
    (response <- execute (search_request query max_results) ;;
     lift (search_normalize response))%io
    except_HttpError.

(** The record the first item of a lookup is normalized to. *)
Definition video_details (video_id : string) (item : json) : result json :=
  (content <- item.["contentDetails"] ;;
   duration <- Py.get content "duration" (JStr "") ;;
   snippet <- item.["snippet"] ;;
   title <- Py.get snippet "title" JNull ;;
   snippet <- item.["snippet"] ;;
   description <- Py.get snippet "description" JNull ;;
   snippet <- item.["snippet"] ;;
   channel_id <- Py.get snippet "channelId" JNull ;;
   snippet <- item.["snippet"] ;;
   channel_title <- Py.get snippet "channelTitle" JNull ;;
   snippet <- item.["snippet"] ;;
   published_at <- Py.get snippet "publishedAt" JNull ;;
   snippet <- item.["snippet"] ;;
   thumbnails <- snippet.["thumbnails"] ;;
   high <- thumbnails.["high"] ;;
   thumbnail <- high.["url"] ;;
   statistics <- item.["statistics"] ;;
   view_count <- Py.get statistics "viewCount" (JNum 0) ;;
   statistics <- item.["statistics"] ;;
   like_count <- Py.get statistics "likeCount" (JNum 0) ;;
   statistics <- item.["statistics"] ;;
   comment_count <- Py.get statistics "commentCount" (JNum 0) ;;
   snippet <- item.["snippet"] ;;
   tags <- Py.get snippet "tags" (JList []) ;;
   snippet <- item.["snippet"] ;;
   category_id <- Py.get snippet "categoryId" JNull ;;
   Ok (JDict [("video_id", JStr video_id);
              ("title", title);
              ("description", description);
              ("channel_id", channel_id);
              ("channel_title", channel_title);
              ("published_at", published_at);
              ("thumbnail", thumbnail);
              ("duration", duration);
              ("view_count", view_count);
              ("like_count", like_count);
              ("comment_count", comment_count);
              ("tags", tags);
              ("category_id", category_id)]))%result.

(** What [get_video_details] makes of the upstream response: [None] is
    Python's [None]. *)
Definition details_normalize (video_id : string) (response : json)
  : result (option json) :=
  (items <- Py.get response "items" JNull ;;
   if Py.truthy items then
     items <- response.["items"] ;;
     item <- Py.getitem0 items ;;
     details <- video_details video_id item ;;
     Ok (Some details)
   else Ok None)%result.

Definition details_request (video_id : string) : upstream_call :=
  VideosList [("part", JStr "snippet,statistics,contentDetails");
              ("id", JStr video_id)].

Definition get_video_details (video_id : string) : M (option json) :=
  try_except
    (response <- execute (details_request video_id) ;;
     lift (details_normalize video_id response))%io
    except_HttpError.

(** The record one chart item is normalized to. *)
Definition trending_data (item : json) : result json :=
  (video_id <- item.["id"] ;;
   snippet <- item.["snippet"] ;;
   title <- Py.get snippet "title" JNull ;;
   snippet <- item.["snippet"] ;;
   description <- Py.get snippet "description" JNull ;;
   snippet <- item.["snippet"] ;;
   thumbnails <- snippet.["thumbnails"] ;;
   default <- thumbnails.["default"] ;;
   thumbnail <- default.["url"] ;;
   snippet <- item.["snippet"] ;;
   channel_title <- Py.get snippet "channelTitle" JNull ;;
   snippet <- item.["snippet"] ;;
   published_at <- Py.get snippet "publishedAt" JNull ;;
   statistics <- item.["statistics"] ;;
   view_count <- Py.get statistics "viewCount" (JNum 0) ;;
   Ok (JDict [("video_id", video_id);
              ("title", title);
              ("description", description);
              ("thumbnail", thumbnail);
              ("channel_title", channel_title);
              ("published_at", published_at);
              ("view_count", view_count)]))%result.

(** The loop of [get_trending_shorts]. *)
Fixpoint trending_loop (items trending : list json) : result (list json) :=
  match items with
  | [] => Ok trending
  | item :: items' =>
      (entry <- trending_data item ;;
       trending_loop items' (trending ++ [entry]))%result
  end.

Definition trending_normalize (response : json) : result (list json) :=
  (items <- response_items response ;;
   trending_loop items [])%result.

Definition trending_request (region_code : string) (max_results : Z)
  : upstream_call :=
  VideosList [("part", JStr "snippet,statistics");
              ("maxResults", JNum max_results);
              ("regionCode", JStr region_code);
              ("videoDuration", JStr "short");
              ("order", JStr "viewCount");
              ("chart", JStr "mostPopular")].

Definition get_trending_shorts (region_code : string) (max_results : Z)
  : M (list json) :=
  try_except
    (response <- execute (trending_request region_code max_results) ;;
     lift (trending_normalize response))%io
    except_HttpError.

(** The record one item of a channel listing is normalized to: the search
    record without a channel title. *)
Definition channel_short_data (item video_id : json) : result json :=
  (snippet <- item.["snippet"] ;;
   title <- Py.get snippet "title" JNull ;;
   snippet <- item.["snippet"] ;;
   description <- Py.get snippet "description" JNull ;;
   snippet <- item.["snippet"] ;;
   thumbnails <- snippet.["thumbnails"] ;;
   default <- thumbnails.["default"] ;;
   thumbnail <- default.["url"] ;;
   snippet <- item.["snippet"] ;;
   published_at <- Py.get snippet "publishedAt" JNull ;;
   Ok (JDict [("video_id", video_id);
              ("title", title);
              ("description", description);
              ("thumbnail", thumbnail);
              ("published_at", published_at)]))%result.

(** The loop of [get_channel_shorts]. *)
Fixpoint channel_loop (items shorts : list json) : result (list json) :=
  match items with
  | [] => Ok shorts
  | item :: items' =>
      (video_id <- video_id_of item ;;
       if Py.truthy video_id then
         short <- channel_short_data item video_id ;;
         channel_loop items' (shorts ++ [short])
       else channel_loop items' shorts)%result
  end.

Definition channel_normalize (response : json) : result (list json) :=
  (items <- response_items response ;;
   channel_loop items [])%result.

Definition channel_request (channel_id : string) (max_results : Z)
  : upstream_call :=
  SearchList [("part", JStr "snippet");
              ("channelId", JStr channel_id);
              ("maxResults", JNum max_results);
              ("videoDuration", JStr "short");
              ("videoType", JStr "video");
              ("order", JStr "date");
              ("type", JStr "video")].

Definition get_channel_shorts (channel_id : string) (max_results : Z)
  : M (list json) :=
  try_except
    (response <- execute (channel_request channel_id max_results) ;;
     lift (channel_normalize response))%io
    except_HttpError.

End Client.

End YouTubeAPI.

(** ** [main.py]: the Flask handlers *)

Module Main.

(** [request.args]: the query string's pairs, in order. *)
Definition multidict : Type := list (string * string).

Record response : Type := mkResponse {
  body : json;
  status : Z
}.

(** [jsonify(v)], and [jsonify(v), code] *)
Definition jsonify (v : json) : response := mkResponse v 200.

Definition with_status (r : response) (code : Z) : response :=
  mkResponse (body r) code.

Definition error_envelope (message : string) : json :=
  JDict [("error", JStr message)].

Definition success_envelope (data : json) : json :=
  JDict [("success", JBool true); ("data", data)].

(** [args.get(key)]: the first value given for [key]. *)
Fixpoint args_get (args : multidict) (key : string) : option string :=
  match args with
  | [] => None
  | (k, v) :: args' => if k =? key then Some v else args_get args' key
  end.

(** [args.get(key, default=default)] *)
Definition args_get_default (args : multidict) (key default : string) : string :=
  match args_get args key with
  | Some v => v
  | None => default
  end.

(** The query string without its [key] pairs. *)
Definition args_without (key : string) (args : multidict) : multidict :=
  filter (fun kv => negb (fst kv =? key)) args.

Section Router.

Variable upstream : nat -> upstream_call -> result json.

(** Python's [int] on a query-string value, [None] standing for the
    [ValueError] it raises on text that is not an integer. *)
Variable py_int : string -> option Z.

(** [args.get(key, default=default, type=int)]: a value [int] refuses is
    replaced by the default. *)
Definition args_get_int (args : multidict) (key : string) (default : Z) : Z :=
  match args_get args key with
  | None => default
  | Some v =>
      match py_int v with
      | Some n => n
      | None => default
      end
  end.

(** [except Exception as e: return jsonify({"error": str(e)}), 500] *)
Definition except_Exception (e : exn) : M response :=
  ret (with_status (jsonify (error_envelope (str e))) 500).

Definition home : M response :=
  ret (jsonify (JDict [("status", JStr "ok");
                       ("message", JStr "Shortfinder API is running")])).

Definition search_shorts (args : multidict) : M response :=
  try_except
    (let query := args_get args "q" in
     let max_results := args_get_int args "max_results" 10 in
     match query with
     | None | Some EmptyString =>
         ret (with_status
                (jsonify (error_envelope "Query parameter 'q' is required"))
                400)
     | Some q =>
         (results <- YouTubeAPI.search_shorts upstream q max_results ;;
          ret (jsonify (success_envelope (JList results))))%io
     end)
    except_Exception.

Definition get_short_details (video_id : string) : M response :=
  try_except
    (details <- YouTubeAPI.get_video_details upstream video_id ;;
     match details with
     | Some d =>
         if Py.truthy d then ret (jsonify (success_envelope d))
         else ret (with_status (jsonify (error_envelope "Video not found")) 404)
     | None =>
         ret (with_status (jsonify (error_envelope "Video not found")) 404)
     end)%io
    except_Exception.

Definition get_trending_shorts (args : multidict) : M response :=
  try_except
    (let region_code := args_get_default args "region" "US" in
     let max_results := args_get_int args "max_results" 10 in
     (results <- YouTubeAPI.get_trending_shorts upstream region_code max_results ;;
      ret (jsonify (success_envelope (JList results))))%io)
    except_Exception.

End Router.

End Main.

(** ** Concrete worlds to run the code in *)

Definition w0 : world := mkWorld [] [].

(** An upstream that answers every call with [response]. *)
Definition answering (response : json) : nat -> upstream_call -> result json :=
  fun _ _ => Ok response.

(** An upstream that fails every call with [e]. *)
Definition failing (e : exn) : nat -> upstream_call -> result json :=
  fun _ _ => Raise e.

Definition thumbnails_of (url : string) : json :=
  JDict [("default", JDict [("url", JStr url)]);
         ("high", JDict [("url", JStr url)])].

(** A search item with a video id and a complete snippet. *)
Definition search_item (video_id : string) : json :=
  JDict [("id", JDict [("kind", JStr "youtube#video");
                       ("videoId", JStr video_id)]);
         ("snippet", JDict [("title", JStr "cats");
                            ("thumbnails", thumbnails_of "http://t/1.jpg")])].

(** A search item for a channel: an id object without [videoId]. *)
Definition channel_item : json :=
  JDict [("id", JDict [("kind", JStr "youtube#channel");
                       ("channelId", JStr "UC1")]);
         ("snippet", JDict [("title", JStr "a channel")])].

(** A videos item with the three facets, its counts as the upstream sends
    them. *)
Definition video_item (id : string) (statistics : list (string * json)) : json :=
  JDict [("id", JStr id);
         ("snippet", JDict [("title", JStr "cats");
                            ("thumbnails", thumbnails_of "http://t/1.jpg")]);
         ("statistics", JDict statistics);
         ("contentDetails", JDict [("duration", JStr "PT30S")])].

(** An item whose snippet holds nothing but its thumbnails, and whose
    statistics and content details are empty objects. *)
Definition bare_item : json :=
  JDict [("id", JStr "zz");
         ("snippet", JDict [("thumbnails", thumbnails_of "http://t/1.jpg")]);
         ("statistics", JDict []);
         ("contentDetails", JDict [])].

(** A search item with a video id whose snippet holds nothing but its
    thumbnails. *)
Definition bare_search_item : json :=
  JDict [("id", JDict [("videoId", JStr "a1")]);
         ("snippet", JDict [("thumbnails", thumbnails_of "http://t/1.jpg")])].

(** An item with an id object and a snippet without thumbnails. *)
Definition no_thumbnails_item : json :=
  JDict [("id", JDict [("videoId", JStr "a1")]);
         ("snippet", JDict [("title", JStr "cats")])].

(** A videos item without the statistics facet. *)
Definition no_statistics_item : json :=
  JDict [("id", JStr "zz");
         ("snippet", JDict [("title", JStr "cats");
                            ("thumbnails", thumbnails_of "http://t/1.jpg")]);
         ("contentDetails", JDict [("duration", JStr "PT30S")])].

(** A videos item without the contentDetails facet. *)
Definition no_content_item : json :=
  JDict [("id", JStr "zz");
         ("snippet", JDict [("title", JStr "cats");
                            ("thumbnails", thumbnails_of "http://t/1.jpg")]);
         ("statistics", JDict [("viewCount", JStr "1234")])].

(** An item without any id object. *)
Definition no_id_item : json :=
  JDict [("snippet", JDict [("title", JStr "a playlist");
                            ("thumbnails", thumbnails_of "http://t/1.jpg")])].

(** Chart items in an order that is not one of descending views. *)
Definition chart : list json :=
  [video_item "low" [("viewCount", JStr "5")];
   video_item "top" [("viewCount", JStr "900")];
   video_item "mid" [("viewCount", JStr "70")]].

(** ** Notions the properties are stated with *)

(** The lines [except HttpError] prints for a failure. *)
Definition printed (e : exn) : list string :=
  match e with
  | HttpError _ => ["An HTTP error occurred: " ++ str e]
  | _ => []
  end.

(** The world after one more upstream call and some printed lines. *)
Definition after (w : world) (c : upstream_call) (lines : list string) : world :=
  mkWorld (calls w ++ [c]) (stdout w ++ lines).

(** An item has a resolvable video identifier when [item["id"].get("videoId")]
    is there and truthy. *)
Definition resolvable (item : json) : bool :=
  match YouTubeAPI.video_id_of item with
  | Ok v => Py.truthy v
  | Raise _ => false
  end.

(** [short] is the summary of [item]. *)
Definition summarizes (item short : json) : Prop :=
  exists v, YouTubeAPI.video_id_of item = Ok v
            /\ YouTubeAPI.short_data item v = Ok short.

(** The items the search loop gets through: the id object is there, and an
    item with a truthy [videoId] has the snippet the summary reads. *)
Definition search_item_ok (item : json) : Prop :=
  exists v, YouTubeAPI.video_id_of item = Ok v
            /\ (Py.truthy v = true ->
                exists short, YouTubeAPI.short_data item v = Ok short).

(** An entry whose [video_id] is there, not null and truthy. *)
Definition has_video_id (entry : json) : Prop :=
  exists v, entry.["video_id"] = Ok v /\ v <> JNull /\ Py.truthy v = true.

(** [f] under a result. *)
Definition rmap {A B} (f : A -> B) (r : result A) : result B :=
  match r with
  | Ok a => Ok (f a)
  | Raise e => Raise e
  end.

(** A record without its entries under [key]. *)
Definition without_key (key : string) (v : json) : json :=
  match v with
  | JDict d => JDict (filter (fun kv => negb (fst kv =? key)) d)
  | _ => v
  end.

(** A computation that raises no [HttpError]. *)
Definition quiet {A} (r : result A) : Prop :=
  forall e, r = Raise e -> printed e = [].

(** The lines a call prints, by what the upstream answered. *)
Definition printed_for (r : result json) : list string :=
  match r with
  | Ok _ => []
  | Raise e => printed e
  end.

(** The router's answers: a status with the envelope that goes with it. *)
Definition success_answer (r : Main.response) : Prop :=
  Main.status r = 200%Z
  /\ exists data, Main.body r = Main.success_envelope data.

Definition error_answer (code : Z) (r : Main.response) : Prop :=
  Main.status r = code
  /\ exists message, Main.body r = Main.error_envelope message.

(** The [video_id] of an entry, if it can be read. *)
Definition video_id_field (entry : json) : result json := entry.["video_id"].

(** What the normalizers make of two sample responses. *)
Definition chart_entries : list json :=
  Eval cbv in
    match YouTubeAPI.trending_normalize (JDict [("items", JList chart)]) with
    | Ok out => out
    | Raise _ => []
    end.

Definition cats_response : json :=
  JDict [("items", JList [search_item "a1"; channel_item; search_item "a2"])].

Definition cats_entries : list json :=
  Eval cbv in
    match YouTubeAPI.search_normalize cats_response with
    | Ok out => out
    | Raise _ => []
    end.

(** ** Reasoning about fallible computations *)

Lemma rbind_Ok {A B} (r : result A) (k : A -> result B) (b : B) :
  rbind r k = Ok b -> exists a, r = Ok a /\ k a = Ok b.
Proof.
  destruct r as [a | e]; simpl; intros H; [eauto | discriminate].
Qed.

(** Splits a hypothesis [x <- r ;; k = Ok b] into [r = Ok x] and [k x = Ok b],
    as far as it goes. *)
Ltac bind_inv H :=
  repeat match type of H with
         | rbind _ _ = Ok _ =>
             let x := fresh "x" in
             let Hx := fresh "Hx" in
             apply rbind_Ok in H; destruct H as (x & Hx & H)
         end.

Lemma get_Ok (v : json) (k : string) (default x : json) :
  Py.get v k default = Ok x ->
  exists d, v = JDict d /\ x = Py.dict_get d k default.
Proof.
  destruct v; simpl; intros H; try discriminate.
  inversion H; eauto.
Qed.

Lemma dict_get_absent d k default :
  Py.lookup k d = None -> Py.dict_get d k default = default.
Proof. unfold Py.dict_get; intros ->; reflexivity. Qed.

Lemma dict_get_present d k default x :
  Py.lookup k d = Some x -> Py.dict_get d k default = x.
Proof. unfold Py.dict_get; intros ->; reflexivity. Qed.

(** ** The records, in closed form, of items that carry their facets *)

Section Facets.

Import YouTubeAPI.

Lemma short_data_facets (item video_id : json) sn url :
  item.["snippet"] = Ok (JDict sn) ->
  Py.path (JDict sn) ["thumbnails"; "default"; "url"] = Ok url ->
  short_data item video_id =
    Ok (JDict [("video_id", video_id);
               ("title", Py.dict_get sn "title" JNull);
               ("description", Py.dict_get sn "description" JNull);
               ("thumbnail", url);
               ("channel_title", Py.dict_get sn "channelTitle" JNull);
               ("published_at", Py.dict_get sn "publishedAt" JNull)]).
Proof.
  intros Hsn Hurl. unfold short_data. rewrite Hsn.
  cbn [rbind Py.get].
  cbn [Py.path] in Hurl.
  destruct ((JDict sn).["thumbnails"]) as [th | ]; [| discriminate].
  cbn [rbind] in Hurl |- *.
  destruct (th.["default"]) as [leaf | ]; [| discriminate].
  cbn [rbind] in Hurl |- *.
  destruct (leaf.["url"]) as [u | ]; [| discriminate].
  cbn [rbind Py.path] in Hurl |- *.
  inversion Hurl; subst. reflexivity.
Qed.

Lemma video_details_facets (video_id : string) (item : json) sn st cd url :
  item.["contentDetails"] = Ok (JDict cd) ->
  item.["snippet"] = Ok (JDict sn) ->
  Py.path (JDict sn) ["thumbnails"; "high"; "url"] = Ok url ->
  item.["statistics"] = Ok (JDict st) ->
  video_details video_id item =
    Ok (JDict [("video_id", JStr video_id);
               ("title", Py.dict_get sn "title" JNull);
               ("description", Py.dict_get sn "description" JNull);
               ("channel_id", Py.dict_get sn "channelId" JNull);
               ("channel_title", Py.dict_get sn "channelTitle" JNull);
               ("published_at", Py.dict_get sn "publishedAt" JNull);
               ("thumbnail", url);
               ("duration", Py.dict_get cd "duration" (JStr ""));
               ("view_count", Py.dict_get st "viewCount" (JNum 0));
               ("like_count", Py.dict_get st "likeCount" (JNum 0));
               ("comment_count", Py.dict_get st "commentCount" (JNum 0));
               ("tags", Py.dict_get sn "tags" (JList []));
               ("category_id", Py.dict_get sn "categoryId" JNull)]).
Proof.
  intros Hcd Hsn Hurl Hst. unfold video_details. rewrite Hcd, Hsn, Hst.
  cbn [rbind Py.get].
  cbn [Py.path] in Hurl.
  destruct ((JDict sn).["thumbnails"]) as [th | ]; [| discriminate].
  cbn [rbind] in Hurl |- *.
  destruct (th.["high"]) as [leaf | ]; [| discriminate].
  cbn [rbind] in Hurl |- *.
  destruct (leaf.["url"]) as [u | ]; [| discriminate].
  cbn [rbind Py.path] in Hurl |- *.
  inversion Hurl; subst. reflexivity.
Qed.

Lemma trending_data_facets (item : json) id sn st url :
  item.["id"] = Ok id ->
  item.["snippet"] = Ok (JDict sn) ->
  Py.path (JDict sn) ["thumbnails"; "default"; "url"] = Ok url ->
  item.["statistics"] = Ok (JDict st) ->
  trending_data item =
    Ok (JDict [("video_id", id);
               ("title", Py.dict_get sn "title" JNull);
               ("description", Py.dict_get sn "description" JNull);
               ("thumbnail", url);
               ("channel_title", Py.dict_get sn "channelTitle" JNull);
               ("published_at", Py.dict_get sn "publishedAt" JNull);
               ("view_count", Py.dict_get st "viewCount" (JNum 0))]).
Proof.
  intros Hid Hsn Hurl Hst. unfold trending_data. rewrite Hid, Hsn, Hst.
  cbn [rbind Py.get].
  cbn [Py.path] in Hurl.
  destruct ((JDict sn).["thumbnails"]) as [th | ]; [| discriminate].
  cbn [rbind] in Hurl |- *.
  destruct (th.["default"]) as [leaf | ]; [| discriminate].
  cbn [rbind] in Hurl |- *.
  destruct (leaf.["url"]) as [u | ]; [| discriminate].
  cbn [rbind Py.path] in Hurl |- *.
  inversion Hurl; subst. reflexivity.
Qed.

(** Reads of one expression give one value. *)
Ltac same_reads :=
  repeat match goal with
         | H1 : ?a = Ok ?x, H2 : ?a = Ok ?y |- _ =>
             assert (y = x) by congruence; subst y; clear H2
         end.

(** A successful [get] on a value shows it is a dict. *)
Ltac dict_reads :=
  repeat match goal with
         | H : Py.get ?v _ _ = Ok _ |- _ =>
             let d := fresh "d" in
             apply get_Ok in H; destruct H as (d & ? & ?); subst
         | H : JDict _ = JDict _ |- _ => inversion H; clear H; subst
         end.

Ltac path_reads :=
  cbn [Py.path];
  repeat match goal with
         | H : ?a = Ok _ |- context [rbind ?a _] => rewrite H; cbn [rbind]
         end.

Lemma short_data_Ok_iff (item video_id record : json) :
  short_data item video_id = Ok record
  <-> exists sn url,
      item.["snippet"] = Ok (JDict sn)
      /\ Py.path (JDict sn) ["thumbnails"; "default"; "url"] = Ok url
      /\ record =
         JDict [("video_id", video_id);
                ("title", Py.dict_get sn "title" JNull);
                ("description", Py.dict_get sn "description" JNull);
                ("thumbnail", url);
                ("channel_title", Py.dict_get sn "channelTitle" JNull);
                ("published_at", Py.dict_get sn "publishedAt" JNull)].
Proof.
  split.
  - unfold short_data. intros H. bind_inv H. same_reads. dict_reads.
    inversion H; subst. do 2 eexists.
    split; [eassumption |]. split; [| reflexivity].
    path_reads. reflexivity.
  - intros (sn & url & Hsn & Hurl & ->). now apply short_data_facets.
Qed.

Lemma video_details_Ok_iff (video_id : string) (item record : json) :
  video_details video_id item = Ok record
  <-> exists sn st cd url,
      item.["contentDetails"] = Ok (JDict cd)
      /\ item.["snippet"] = Ok (JDict sn)
      /\ Py.path (JDict sn) ["thumbnails"; "high"; "url"] = Ok url
      /\ item.["statistics"] = Ok (JDict st)
      /\ record =
         JDict [("video_id", JStr video_id);
                ("title", Py.dict_get sn "title" JNull);
                ("description", Py.dict_get sn "description" JNull);
                ("channel_id", Py.dict_get sn "channelId" JNull);
                ("channel_title", Py.dict_get sn "channelTitle" JNull);
                ("published_at", Py.dict_get sn "publishedAt" JNull);
                ("thumbnail", url);
                ("duration", Py.dict_get cd "duration" (JStr ""));
                ("view_count", Py.dict_get st "viewCount" (JNum 0));
                ("like_count", Py.dict_get st "likeCount" (JNum 0));
                ("comment_count", Py.dict_get st "commentCount" (JNum 0));
                ("tags", Py.dict_get sn "tags" (JList []));
                ("category_id", Py.dict_get sn "categoryId" JNull)].
Proof.
  split.
  - unfold video_details. intros H. bind_inv H. same_reads. dict_reads.
    inversion H; subst. do 4 eexists.
    split; [eassumption |]. split; [eassumption |].
    split; [| split; [eassumption | reflexivity]].
    path_reads. reflexivity.
  - intros (sn & st & cd & url & Hcd & Hsn & Hurl & Hst & ->).
    now apply video_details_facets.
Qed.

Lemma trending_data_Ok_iff (item record : json) :
  trending_data item = Ok record
  <-> exists id sn st url,
      item.["id"] = Ok id
      /\ item.["snippet"] = Ok (JDict sn)
      /\ Py.path (JDict sn) ["thumbnails"; "default"; "url"] = Ok url
      /\ item.["statistics"] = Ok (JDict st)
      /\ record =
         JDict [("video_id", id);
                ("title", Py.dict_get sn "title" JNull);
                ("description", Py.dict_get sn "description" JNull);
                ("thumbnail", url);
                ("channel_title", Py.dict_get sn "channelTitle" JNull);
                ("published_at", Py.dict_get sn "publishedAt" JNull);
                ("view_count", Py.dict_get st "viewCount" (JNum 0))].
Proof.
  split.
  - unfold trending_data. intros H. bind_inv H. same_reads. dict_reads.
    inversion H; subst. do 4 eexists.
    split; [eassumption |]. split; [eassumption |].
    split; [| split; [eassumption | reflexivity]].
    path_reads. reflexivity.
  - intros (id & sn & st & url & Hid & Hsn & Hurl & Hst & ->).
    now apply trending_data_facets.
Qed.

End Facets.

(** One item in the loop of [search_shorts]: it gets through when its id
    object is there and either holds no truthy [videoId], the item being
    skipped, or the snippet the summary reads is there. *)
Lemma search_item_Ok_iff (item : json) (shorts out : list json) :
  YouTubeAPI.search_loop [item] shorts = Ok out
  <-> exists id,
      item.["id"] = Ok (JDict id)
      /\ ((Py.truthy (Py.dict_get id "videoId" JNull) = false
           /\ out = shorts)
          \/ (Py.truthy (Py.dict_get id "videoId" JNull) = true
              /\ exists sn url,
                  item.["snippet"] = Ok (JDict sn)
                  /\ Py.path (JDict sn) ["thumbnails"; "default"; "url"]
                     = Ok url
                  /\ out =
                     (shorts
                      ++ [JDict [("video_id",
                                   Py.dict_get id "videoId" JNull);
                                 ("title", Py.dict_get sn "title" JNull);
                                 ("description",
                                   Py.dict_get sn "description" JNull);
                                 ("thumbnail", url);
                                 ("channel_title",
                                   Py.dict_get sn "channelTitle" JNull);
                                 ("published_at",
                                   Py.dict_get sn "publishedAt" JNull)]])%list)).
Proof.
  split.
  - cbn [YouTubeAPI.search_loop]. intros H.
    apply rbind_Ok in H. destruct H as (v & Hv & H).
    unfold YouTubeAPI.video_id_of in Hv.
    apply rbind_Ok in Hv. destruct Hv as (id & Hid & Hv).
    apply get_Ok in Hv. destruct Hv as (d & -> & ->).
    exists d. split; [exact Hid |].
    destruct (Py.truthy (Py.dict_get d "videoId" JNull)) eqn:Ht.
    + right. split; [reflexivity |].
      apply rbind_Ok in H. destruct H as (short & Hs & H).
      cbn in H. inversion H; subst.
      apply short_data_Ok_iff in Hs. destruct Hs as (sn & url & Hsn & Hurl & ->).
      exists sn, url. repeat split; assumption.
    + left. split; [reflexivity |]. cbn in H. now inversion H.
  - intros (id & Hid & [[Ht ->] | (Ht & sn & url & Hsn & Hurl & ->)]);
      cbn [YouTubeAPI.search_loop]; unfold YouTubeAPI.video_id_of;
      rewrite Hid; cbn [rbind Py.get]; rewrite Ht.
    + reflexivity.
    + rewrite (short_data_facets item _ sn url Hsn Hurl). reflexivity.
Qed.

(** ** Absent fields and absent facets *)

(** C1, as the code has it: an item gets through normalization without an
    exception exactly when the objects the method subscripts are there.  In
    [search_shorts] that is the id object, and, when it holds a truthy
    [videoId], the snippet with the default thumbnail's url (an item without
    a truthy [videoId] is skipped, whatever else it lacks); in
    [get_video_details] the content details, the snippet with the high
    thumbnail's url and the statistics; in [get_trending_shorts] an id, the
    snippet with the default thumbnail's url and the statistics.  Whatever
    field is absent inside those objects is defaulted: a string to null, a
    count to 0, the tags to the empty list, the duration to the empty
    string.  An item without one of the objects makes the method raise. *)
Theorem normalization_defaults_absent_fields :
  forall item : json,
    (forall shorts out,
        YouTubeAPI.search_loop [item] shorts = Ok out
        <-> exists id,
            item.["id"] = Ok (JDict id)
            /\ ((Py.truthy (Py.dict_get id "videoId" JNull) = false
                 /\ out = shorts)
                \/ (Py.truthy (Py.dict_get id "videoId" JNull) = true
                    /\ exists sn url,
                        item.["snippet"] = Ok (JDict sn)
                        /\ Py.path (JDict sn) ["thumbnails"; "default"; "url"]
                           = Ok url
                        /\ out =
                           (shorts
                            ++ [JDict [("video_id",
                                         Py.dict_get id "videoId" JNull);
                                       ("title", Py.dict_get sn "title" JNull);
                                       ("description",
                                         Py.dict_get sn "description" JNull);
                                       ("thumbnail", url);
                                       ("channel_title",
                                         Py.dict_get sn "channelTitle" JNull);
                                       ("published_at",
                                         Py.dict_get sn "publishedAt" JNull)]])%list)))
    /\ (forall video_id record,
           YouTubeAPI.video_details video_id item = Ok record
           <-> exists sn st cd url,
               item.["contentDetails"] = Ok (JDict cd)
               /\ item.["snippet"] = Ok (JDict sn)
               /\ Py.path (JDict sn) ["thumbnails"; "high"; "url"] = Ok url
               /\ item.["statistics"] = Ok (JDict st)
               /\ record =
                  JDict [("video_id", JStr video_id);
                         ("title", Py.dict_get sn "title" JNull);
                         ("description", Py.dict_get sn "description" JNull);
                         ("channel_id", Py.dict_get sn "channelId" JNull);
                         ("channel_title",
                           Py.dict_get sn "channelTitle" JNull);
                         ("published_at", Py.dict_get sn "publishedAt" JNull);
                         ("thumbnail", url);
                         ("duration", Py.dict_get cd "duration" (JStr ""));
                         ("view_count", Py.dict_get st "viewCount" (JNum 0));
                         ("like_count", Py.dict_get st "likeCount" (JNum 0));
                         ("comment_count",
                           Py.dict_get st "commentCount" (JNum 0));
                         ("tags", Py.dict_get sn "tags" (JList []));
                         ("category_id", Py.dict_get sn "categoryId" JNull)])
    /\ (forall record,
           YouTubeAPI.trending_data item = Ok record
           <-> exists id sn st url,
               item.["id"] = Ok id
               /\ item.["snippet"] = Ok (JDict sn)
               /\ Py.path (JDict sn) ["thumbnails"; "default"; "url"] = Ok url
               /\ item.["statistics"] = Ok (JDict st)
               /\ record =
                  JDict [("video_id", id);
                         ("title", Py.dict_get sn "title" JNull);
                         ("description", Py.dict_get sn "description" JNull);
                         ("thumbnail", url);
                         ("channel_title",
                           Py.dict_get sn "channelTitle" JNull);
                         ("published_at", Py.dict_get sn "publishedAt" JNull);
                         ("view_count", Py.dict_get st "viewCount" (JNum 0))]).
Proof.
  intros item. split; [| split]; intros.
  - apply search_item_Ok_iff.
  - apply video_details_Ok_iff.
  - apply trending_data_Ok_iff.
Qed.

Lemma normalization_defaults_absent_fields_witness :
  YouTubeAPI.search_loop [bare_search_item] [] =
    Ok [JDict [("video_id", JStr "a1"); ("title", JNull);
               ("description", JNull); ("thumbnail", JStr "http://t/1.jpg");
               ("channel_title", JNull); ("published_at", JNull)]]
  /\ YouTubeAPI.search_loop [channel_item] [] = Ok []
  /\ YouTubeAPI.video_details "x" bare_item =
       Ok (JDict [("video_id", JStr "x"); ("title", JNull);
                  ("description", JNull); ("channel_id", JNull);
                  ("channel_title", JNull); ("published_at", JNull);
                  ("thumbnail", JStr "http://t/1.jpg");
                  ("duration", JStr ""); ("view_count", JNum 0);
                  ("like_count", JNum 0); ("comment_count", JNum 0);
                  ("tags", JList []); ("category_id", JNull)])
  /\ YouTubeAPI.trending_data bare_item =
       Ok (JDict [("video_id", JStr "zz"); ("title", JNull);
                  ("description", JNull); ("thumbnail", JStr "http://t/1.jpg");
                  ("channel_title", JNull); ("published_at", JNull);
                  ("view_count", JNum 0)]).
Proof.
  destruct (normalization_defaults_absent_fields bare_item) as (_ & Hd & Ht).
  split; [| split; [| split]].
  - apply (proj1 (normalization_defaults_absent_fields bare_search_item)).
    exists [("videoId", JStr "a1")]. split; [reflexivity |]. right.
    split; [reflexivity |].
    exists [("thumbnails", thumbnails_of "http://t/1.jpg")],
           (JStr "http://t/1.jpg").
    repeat split.
  - apply (proj1 (normalization_defaults_absent_fields channel_item)).
    exists [("kind", JStr "youtube#channel"); ("channelId", JStr "UC1")].
    split; [reflexivity |]. left. split; reflexivity.
  - apply Hd.
    exists [("thumbnails", thumbnails_of "http://t/1.jpg")], [], [],
           (JStr "http://t/1.jpg").
    repeat split.
  - apply Ht.
    exists (JStr "zz"), [("thumbnails", thumbnails_of "http://t/1.jpg")], [],
           (JStr "http://t/1.jpg").
    repeat split.
Defined.

(** C1 as stated fails: an item without the thumbnails object, without the
    statistics facet or without the contentDetails facet makes the
    normalizer raise [KeyError], which reaches the caller as HTTP 500. *)
Lemma absent_facet_raises :
  YouTubeAPI.short_data no_thumbnails_item (JStr "a1")
    = Raise (KeyError "'thumbnails'")
  /\ YouTubeAPI.video_details "zz" no_statistics_item
     = Raise (KeyError "'statistics'")
  /\ YouTubeAPI.video_details "zz" no_content_item
     = Raise (KeyError "'contentDetails'")
  /\ YouTubeAPI.trending_data no_statistics_item
     = Raise (KeyError "'statistics'")
  /\ fst (Main.search_shorts
            (answering (JDict [("items", JList [no_thumbnails_item])]))
            Py.int_ascii [("q", "cats")] w0)
     = Ok (Main.mkResponse (Main.error_envelope "'thumbnails'") 500)
  /\ fst (Main.get_short_details
            (answering (JDict [("items", JList [no_statistics_item])]))
            "zz" w0)
     = Ok (Main.mkResponse (Main.error_envelope "'statistics'") 500)
  /\ fst (Main.get_trending_shorts
            (answering (JDict [("items", JList [no_statistics_item])]))
            Py.int_ascii [] w0)
     = Ok (Main.mkResponse (Main.error_envelope "'statistics'") 500).
Proof. repeat split; reflexivity. Qed.

(** ** Count fields *)

(** C2, as the code has it: a record is built only for an item whose
    statistics facet is there as an object, and each count field of the
    record is then the upstream statistics value as it was sent when the key
    is there, and the integer 0 when the key is absent; an item that carries
    its facets does get its record. *)
Theorem counts_verbatim_or_zero :
  forall item : json,
    (forall video_id d,
        YouTubeAPI.video_details video_id item = Ok d ->
        exists st,
          item.["statistics"] = Ok (JDict st)
          /\ d.["view_count"] = Ok (Py.dict_get st "viewCount" (JNum 0))
          /\ d.["like_count"] = Ok (Py.dict_get st "likeCount" (JNum 0))
          /\ d.["comment_count"] = Ok (Py.dict_get st "commentCount" (JNum 0)))
    /\ (forall d,
           YouTubeAPI.trending_data item = Ok d ->
           exists st,
             item.["statistics"] = Ok (JDict st)
             /\ d.["view_count"] = Ok (Py.dict_get st "viewCount" (JNum 0)))
    /\ (forall video_id sn st cd url,
           item.["contentDetails"] = Ok (JDict cd) ->
           item.["snippet"] = Ok (JDict sn) ->
           Py.path (JDict sn) ["thumbnails"; "high"; "url"] = Ok url ->
           item.["statistics"] = Ok (JDict st) ->
           exists d, YouTubeAPI.video_details video_id item = Ok d)
    /\ (forall id sn st url,
           item.["id"] = Ok id ->
           item.["snippet"] = Ok (JDict sn) ->
           Py.path (JDict sn) ["thumbnails"; "default"; "url"] = Ok url ->
           item.["statistics"] = Ok (JDict st) ->
           exists d, YouTubeAPI.trending_data item = Ok d)
    /\ (forall st key, Py.lookup key st = None ->
                       Py.dict_get st key (JNum 0) = JNum 0)
    /\ (forall st key v, Py.lookup key st = Some v ->
                         Py.dict_get st key (JNum 0) = v).
Proof.
  intros item. repeat apply conj.
  - intros video_id d H. apply video_details_Ok_iff in H.
    destruct H as (sn & st & cd & url & _ & _ & _ & Hst & ->).
    exists st. repeat split. exact Hst.
  - intros d H. apply trending_data_Ok_iff in H.
    destruct H as (id & sn & st & url & _ & _ & _ & Hst & ->).
    exists st. repeat split. exact Hst.
  - intros video_id sn st cd url Hcd Hsn Hurl Hst.
    eexists. now apply video_details_facets with (1 := Hcd) (2 := Hsn)
                                                 (3 := Hurl) (4 := Hst).
  - intros id sn st url Hid Hsn Hurl Hst.
    eexists. now apply trending_data_facets with (1 := Hid) (2 := Hsn)
                                                 (3 := Hurl) (4 := Hst).
  - intros st key. apply dict_get_absent.
  - intros st key v. apply dict_get_present.
Qed.

Lemma counts_verbatim_or_zero_witness :
  exists st,
    (video_item "zz" [("likeCount", JNum 7)]).["statistics"] = Ok (JDict st)
    /\ (JDict [("video_id", JStr "x"); ("title", JStr "cats");
               ("description", JNull); ("channel_id", JNull);
               ("channel_title", JNull); ("published_at", JNull);
               ("thumbnail", JStr "http://t/1.jpg");
               ("duration", JStr "PT30S"); ("view_count", JNum 0);
               ("like_count", JNum 7); ("comment_count", JNum 0);
               ("tags", JList []); ("category_id", JNull)]).["view_count"]
       = Ok (Py.dict_get st "viewCount" (JNum 0))
    /\ (JDict [("video_id", JStr "x"); ("title", JStr "cats");
               ("description", JNull); ("channel_id", JNull);
               ("channel_title", JNull); ("published_at", JNull);
               ("thumbnail", JStr "http://t/1.jpg");
               ("duration", JStr "PT30S"); ("view_count", JNum 0);
               ("like_count", JNum 7); ("comment_count", JNum 0);
               ("tags", JList []); ("category_id", JNull)]).["like_count"]
       = Ok (Py.dict_get st "likeCount" (JNum 0))
    /\ (JDict [("video_id", JStr "x"); ("title", JStr "cats");
               ("description", JNull); ("channel_id", JNull);
               ("channel_title", JNull); ("published_at", JNull);
               ("thumbnail", JStr "http://t/1.jpg");
               ("duration", JStr "PT30S"); ("view_count", JNum 0);
               ("like_count", JNum 7); ("comment_count", JNum 0);
               ("tags", JList []); ("category_id", JNull)]).["comment_count"]
       = Ok (Py.dict_get st "commentCount" (JNum 0)).
Proof.
  apply (proj1 (counts_verbatim_or_zero
                  (video_item "zz" [("likeCount", JNum 7)])) "x").
  reflexivity.
Defined.

(** C2 as stated fails: a count the upstream sends is passed on as it is (the
    service sends counts as strings), so it need not be an integer or
    non-negative; and without the statistics facet no record with zero
    counts is built, the normalizer raises. *)
Lemma counts_not_integers :
  (exists d,
      YouTubeAPI.video_details "x" (video_item "zz" [("viewCount", JStr "1234")])
        = Ok d
      /\ d.["view_count"] = Ok (JStr "1234"))
  /\ (exists d,
         YouTubeAPI.trending_data (video_item "zz" [("viewCount", JNum (-5))])
           = Ok d
         /\ d.["view_count"] = Ok (JNum (-5)))
  /\ YouTubeAPI.video_details "zz" no_statistics_item
     = Raise (KeyError "'statistics'")
  /\ YouTubeAPI.trending_data no_statistics_item
     = Raise (KeyError "'statistics'").
Proof.
  split; [| split; [| split]];
    try reflexivity; eexists; split; reflexivity.
Qed.

(** ** Running one upstream call *)

Lemma after_nil w c : after w c [] = mkWorld (calls w ++ [c]) (stdout w).
Proof. unfold after. now rewrite app_nil_r. Qed.

Lemma except_HttpError_run {A} (e : exn) (w : world) :
  @YouTubeAPI.except_HttpError A e w
  = (Raise e, mkWorld (calls w) (stdout w ++ printed e)).
Proof.
  destruct e, w; cbn; rewrite ?app_nil_r; reflexivity.
Qed.

(** Every method of the client is one executed request followed by a pure
    normalization, under the same handler. *)
Lemma call_run {A} upstream (req : upstream_call) (norm : json -> result A) w :
  try_except
    (response <- YouTubeAPI.execute upstream req ;; lift (norm response))%io
    YouTubeAPI.except_HttpError w
  = match rbind (upstream (length (calls w)) req) norm with
    | Ok a => (Ok a, after w req [])
    | Raise e => (Raise e, after w req (printed e))
    end.
Proof.
  unfold try_except, bind, YouTubeAPI.execute, lift.
  destruct (upstream (length (calls w)) req) as [resp | e]; cbn [rbind].
  - destruct (norm resp) as [a | e].
    + now rewrite after_nil.
    + now rewrite except_HttpError_run.
  - now rewrite except_HttpError_run.
Qed.

Lemma search_shorts_run upstream q n w :
  YouTubeAPI.search_shorts upstream q n w
  = match rbind (upstream (length (calls w)) (YouTubeAPI.search_request q n))
                YouTubeAPI.search_normalize with
    | Ok a => (Ok a, after w (YouTubeAPI.search_request q n) [])
    | Raise e => (Raise e, after w (YouTubeAPI.search_request q n) (printed e))
    end.
Proof. apply call_run. Qed.

Lemma get_video_details_run upstream video_id w :
  YouTubeAPI.get_video_details upstream video_id w
  = match rbind (upstream (length (calls w))
                          (YouTubeAPI.details_request video_id))
                (YouTubeAPI.details_normalize video_id) with
    | Ok a => (Ok a, after w (YouTubeAPI.details_request video_id) [])
    | Raise e =>
        (Raise e, after w (YouTubeAPI.details_request video_id) (printed e))
    end.
Proof. apply call_run. Qed.

Lemma get_trending_shorts_run upstream region n w :
  YouTubeAPI.get_trending_shorts upstream region n w
  = match rbind (upstream (length (calls w))
                          (YouTubeAPI.trending_request region n))
                YouTubeAPI.trending_normalize with
    | Ok a => (Ok a, after w (YouTubeAPI.trending_request region n) [])
    | Raise e =>
        (Raise e, after w (YouTubeAPI.trending_request region n) (printed e))
    end.
Proof. apply call_run. Qed.

(** ** Upstream failures *)

(** C4: when the upstream call of a search (with a non-empty [q]), of a
    detail lookup or of a trending request raises, the handler answers HTTP
    500 with the error envelope of the failure's text; the call was executed
    once, and nothing else happened but the line printed for an
    [HttpError]. *)
Theorem upstream_failure_is_500 :
  forall upstream py_int (e : exn),
    (forall args q w,
        Main.args_get args "q" = Some q -> q <> "" ->
        upstream (length (calls w))
                 (YouTubeAPI.search_request
                    q (Main.args_get_int py_int args "max_results" 10))
          = Raise e ->
        Main.search_shorts upstream py_int args w
        = (Ok (Main.mkResponse (Main.error_envelope (str e)) 500),
           after w (YouTubeAPI.search_request
                      q (Main.args_get_int py_int args "max_results" 10))
                 (printed e)))
    /\ (forall video_id w,
           upstream (length (calls w)) (YouTubeAPI.details_request video_id)
             = Raise e ->
           Main.get_short_details upstream video_id w
           = (Ok (Main.mkResponse (Main.error_envelope (str e)) 500),
              after w (YouTubeAPI.details_request video_id) (printed e)))
    /\ (forall args w,
           upstream (length (calls w))
                    (YouTubeAPI.trending_request
                       (Main.args_get_default args "region" "US")
                       (Main.args_get_int py_int args "max_results" 10))
             = Raise e ->
           Main.get_trending_shorts upstream py_int args w
           = (Ok (Main.mkResponse (Main.error_envelope (str e)) 500),
              after w (YouTubeAPI.trending_request
                         (Main.args_get_default args "region" "US")
                         (Main.args_get_int py_int args "max_results" 10))
                    (printed e))).
Proof.
  intros upstream py_int e. split; [| split].
  - intros args q w Hq Hne Hup.
    unfold Main.search_shorts, try_except, bind. rewrite Hq.
    destruct q as [| c q']; [contradiction |].
    rewrite search_shorts_run, Hup. reflexivity.
  - intros video_id w Hup.
    unfold Main.get_short_details, try_except, bind.
    rewrite get_video_details_run, Hup. reflexivity.
  - intros args w Hup.
    unfold Main.get_trending_shorts, try_except, bind.
    rewrite get_trending_shorts_run, Hup. reflexivity.
Qed.

Lemma upstream_failure_is_500_witness :
  Main.search_shorts (failing (HttpError "quotaExceeded")) Py.int_ascii
                     [("q", "cats"); ("max_results", "5")] w0
  = (Ok (Main.mkResponse (Main.error_envelope "quotaExceeded") 500),
     mkWorld [YouTubeAPI.search_request "cats" 5]
             ["An HTTP error occurred: quotaExceeded"])
  /\ Main.get_short_details (failing (HttpError "quotaExceeded")) "a1" w0
     = (Ok (Main.mkResponse (Main.error_envelope "quotaExceeded") 500),
        mkWorld [YouTubeAPI.details_request "a1"]
                ["An HTTP error occurred: quotaExceeded"])
  /\ Main.get_trending_shorts (failing (HttpError "quotaExceeded"))
                              Py.int_ascii [("region", "GB")] w0
     = (Ok (Main.mkResponse (Main.error_envelope "quotaExceeded") 500),
        mkWorld [YouTubeAPI.trending_request "GB" 10]
                ["An HTTP error occurred: quotaExceeded"]).
Proof.
  destruct (upstream_failure_is_500
              (failing (HttpError "quotaExceeded")) Py.int_ascii
              (HttpError "quotaExceeded"))
    as (Hs & Hd & Ht).
  split; [| split].
  - apply (Hs [("q", "cats"); ("max_results", "5")] "cats" w0);
      [reflexivity | discriminate | reflexivity].
  - apply (Hd "a1" w0). reflexivity.
  - apply (Ht [("region", "GB")] w0). reflexivity.
Defined.

(** ** The missing query *)

(** C6: a search request whose [q] is absent or empty is answered HTTP 400
    with the message [Query parameter 'q' is required], whatever the other
    parameters are; the world is left as it was, so no upstream call was
    made. *)
Theorem missing_query_is_400 :
  forall upstream py_int args w,
    Main.args_get args "q" = None \/ Main.args_get args "q" = Some "" ->
    Main.search_shorts upstream py_int args w
    = (Ok (Main.mkResponse
             (Main.error_envelope "Query parameter 'q' is required") 400),
       w).
Proof.
  intros upstream py_int args w [Hq | Hq];
    unfold Main.search_shorts, try_except; rewrite Hq; reflexivity.
Qed.

Lemma missing_query_is_400_witness :
  Main.search_shorts (answering (JDict [("items", JList [search_item "a1"])]))
                     Py.int_ascii [("max_results", "5")] w0
  = (Ok (Main.mkResponse
           (Main.error_envelope "Query parameter 'q' is required") 400),
     w0)
  /\ Main.search_shorts (failing (HttpError "quotaExceeded"))
                        Py.int_ascii [("q", ""); ("max_results", "x")] w0
     = (Ok (Main.mkResponse
              (Main.error_envelope "Query parameter 'q' is required") 400),
        w0).
Proof.
  split.
  - apply missing_query_is_400. left. reflexivity.
  - apply missing_query_is_400. right. reflexivity.
Defined.

(** ** Detail lookup *)

Lemma video_details_video_id (video_id : string) (item d : json) :
  YouTubeAPI.video_details video_id item = Ok d ->
  d.["video_id"] = Ok (JStr video_id) /\ Py.truthy d = true.
Proof.
  unfold YouTubeAPI.video_details. intros H. bind_inv H.
  inversion H; subst. split; reflexivity.
Qed.

Lemma get_items_cons (response item : json) (rest : list json) :
  Py.get response "items" JNull = Ok (JList (item :: rest)) ->
  response.["items"] = Ok (JList (item :: rest)).
Proof.
  intros H. apply get_Ok in H. destruct H as (d & -> & H).
  unfold Py.dict_get in H. cbn [Py.getitem].
  destruct (Py.lookup "items" d); [now subst | discriminate].
Qed.

Lemma details_normalize_empty (video_id : string) (response items : json) :
  Py.get response "items" JNull = Ok items ->
  Py.truthy items = false ->
  YouTubeAPI.details_normalize video_id response = Ok None.
Proof.
  intros H Hfalsy. unfold YouTubeAPI.details_normalize. rewrite H.
  cbn [rbind]. now rewrite Hfalsy.
Qed.

Lemma details_normalize_cons (video_id : string) (response item : json) rest :
  Py.get response "items" JNull = Ok (JList (item :: rest)) ->
  YouTubeAPI.details_normalize video_id response
  = rbind (YouTubeAPI.video_details video_id item) (fun d => Ok (Some d)).
Proof.
  intros H. unfold YouTubeAPI.details_normalize.
  rewrite H, (get_items_cons _ _ _ H). reflexivity.
Qed.

Lemma details_normalize_Some (video_id : string) (response d : json) :
  YouTubeAPI.details_normalize video_id response = Ok (Some d) ->
  exists items item,
    response.["items"] = Ok items
    /\ Py.getitem0 items = Ok item
    /\ YouTubeAPI.video_details video_id item = Ok d.
Proof.
  unfold YouTubeAPI.details_normalize. intros H. bind_inv H.
  destruct (Py.truthy x); [| discriminate].
  bind_inv H. inversion H; subst. eauto.
Qed.

(** C5, as the code has it: when the upstream lookup answers with an empty
    item list (or with no items at all) the endpoint answers HTTP 404 with
    the error envelope of [Video not found]; when it answers with a
    non-empty list whose first item normalizes, HTTP 200 with the success
    envelope of that record; and when the first item does not normalize (a
    facet is missing), HTTP 500 with the exception's text. *)
Theorem detail_lookup_status :
  forall upstream video_id w response,
    upstream (length (calls w)) (YouTubeAPI.details_request video_id)
      = Ok response ->
    (forall items,
        Py.get response "items" JNull = Ok items ->
        Py.truthy items = false ->
        Main.get_short_details upstream video_id w
        = (Ok (Main.mkResponse (Main.error_envelope "Video not found") 404),
           after w (YouTubeAPI.details_request video_id) []))
    /\ (forall item rest details,
           Py.get response "items" JNull = Ok (JList (item :: rest)) ->
           YouTubeAPI.video_details video_id item = Ok details ->
           Main.get_short_details upstream video_id w
           = (Ok (Main.mkResponse (Main.success_envelope details) 200),
              after w (YouTubeAPI.details_request video_id) []))
    /\ (forall item rest e,
           Py.get response "items" JNull = Ok (JList (item :: rest)) ->
           YouTubeAPI.video_details video_id item = Raise e ->
           Main.get_short_details upstream video_id w
           = (Ok (Main.mkResponse (Main.error_envelope (str e)) 500),
              after w (YouTubeAPI.details_request video_id) (printed e))).
Proof.
  intros upstream video_id w response Hup. split; [| split].
  - intros items Hitems Hfalsy.
    unfold Main.get_short_details, try_except, bind.
    rewrite get_video_details_run, Hup. cbn [rbind].
    rewrite (details_normalize_empty _ _ _ Hitems Hfalsy). reflexivity.
  - intros item rest details Hitems Hd.
    unfold Main.get_short_details, try_except, bind.
    rewrite get_video_details_run, Hup. cbn [rbind].
    rewrite (details_normalize_cons _ _ _ _ Hitems), Hd. cbn [rbind].
    destruct (video_details_video_id _ _ _ Hd) as [_ ->]. reflexivity.
  - intros item rest e Hitems Hd.
    unfold Main.get_short_details, try_except, bind.
    rewrite get_video_details_run, Hup. cbn [rbind].
    rewrite (details_normalize_cons _ _ _ _ Hitems), Hd. reflexivity.
Qed.

Lemma detail_lookup_status_witness :
  Main.get_short_details (answering (JDict [("items", JList [])]))
                         "unknownid" w0
  = (Ok (Main.mkResponse (JDict [("error", JStr "Video not found")]) 404),
     mkWorld [YouTubeAPI.details_request "unknownid"] [])
  /\ fst (Main.get_short_details
            (answering (JDict [("items", JList [bare_item])])) "x" w0)
     = Ok (Main.mkResponse
             (Main.success_envelope
                (JDict [("video_id", JStr "x"); ("title", JNull);
                        ("description", JNull); ("channel_id", JNull);
                        ("channel_title", JNull); ("published_at", JNull);
                        ("thumbnail", JStr "http://t/1.jpg");
                        ("duration", JStr ""); ("view_count", JNum 0);
                        ("like_count", JNum 0); ("comment_count", JNum 0);
                        ("tags", JList []); ("category_id", JNull)]))
             200).
Proof.
  split.
  - apply (proj1 (detail_lookup_status
                    (answering (JDict [("items", JList [])])) "unknownid" w0
                    (JDict [("items", JList [])]) eq_refl) (JList []));
      reflexivity.
  - rewrite (proj1 (proj2 (detail_lookup_status
               (answering (JDict [("items", JList [bare_item])])) "x" w0
               (JDict [("items", JList [bare_item])]) eq_refl))
               bare_item [] _ eq_refl eq_refl).
    reflexivity.
Defined.

(** C5 as stated fails in its second half: a non-empty item list whose first
    item lacks a facet is answered HTTP 500, not 200. *)
Lemma detail_lookup_nonempty_500 :
  Py.get (JDict [("items", JList [no_content_item])]) "items" JNull
    = Ok (JList [no_content_item])
  /\ Main.get_short_details
       (answering (JDict [("items", JList [no_content_item])])) "zz" w0
     = (Ok (Main.mkResponse (JDict [("error", JStr "'contentDetails'")]) 500),
        mkWorld [YouTubeAPI.details_request "zz"] [])
  /\ (500 <> 200)%Z.
Proof. repeat split. discriminate. Qed.

(** C9: whatever record [get_video_details] returns carries the identifier
    the caller passed in as its [video_id]; and for a non-empty upstream
    item list whose first item carries its facets it does return such a
    record, whatever id the item itself has. *)
Theorem details_echo_video_id :
  forall upstream video_id w,
    (forall d w',
        YouTubeAPI.get_video_details upstream video_id w = (Ok (Some d), w') ->
        d.["video_id"] = Ok (JStr video_id))
    /\ (forall response item rest sn st cd url,
           upstream (length (calls w)) (YouTubeAPI.details_request video_id)
             = Ok response ->
           Py.get response "items" JNull = Ok (JList (item :: rest)) ->
           item.["contentDetails"] = Ok (JDict cd) ->
           item.["snippet"] = Ok (JDict sn) ->
           Py.path (JDict sn) ["thumbnails"; "high"; "url"] = Ok url ->
           item.["statistics"] = Ok (JDict st) ->
           exists d,
             YouTubeAPI.get_video_details upstream video_id w
             = (Ok (Some d), after w (YouTubeAPI.details_request video_id) [])
             /\ d.["video_id"] = Ok (JStr video_id)).
Proof.
  intros upstream video_id w. split.
  - intros d w' H. rewrite get_video_details_run in H.
    destruct (rbind _ _) as [o | e] eqn:E; inversion H; subst.
    apply rbind_Ok in E. destruct E as (response & _ & E).
    apply details_normalize_Some in E. destruct E as (items & item & _ & _ & E).
    now apply video_details_video_id in E.
  - intros response item rest sn st cd url Hup Hitems Hcd Hsn Hurl Hst.
    pose proof (video_details_facets video_id item sn st cd url
                  Hcd Hsn Hurl Hst) as Hd.
    eexists. split.
    + rewrite get_video_details_run, Hup. cbn [rbind].
      rewrite (details_normalize_cons _ _ _ _ Hitems), Hd. reflexivity.
    + reflexivity.
Qed.

Lemma details_echo_video_id_witness :
  (exists d,
      YouTubeAPI.get_video_details
        (answering (JDict [("items", JList [video_item "zz" []])])) "x" w0
      = (Ok (Some d), after w0 (YouTubeAPI.details_request "x") [])
      /\ d.["video_id"] = Ok (JStr "x"))
  /\ (video_item "zz" []).["id"] = Ok (JStr "zz").
Proof.
  split; [| reflexivity].
  apply (proj2 (details_echo_video_id
                  (answering (JDict [("items", JList [video_item "zz" []])]))
                  "x" w0)
           (JDict [("items", JList [video_item "zz" []])])
           (video_item "zz" []) []
           [("title", JStr "cats");
            ("thumbnails", thumbnails_of "http://t/1.jpg")]
           [] [("duration", JStr "PT30S")] (JStr "http://t/1.jpg"));
    reflexivity.
Defined.

(** ** Search: which items are kept, and in which order *)

Lemma short_data_video_id (item v short : json) :
  YouTubeAPI.short_data item v = Ok short -> short.["video_id"] = Ok v.
Proof.
  unfold YouTubeAPI.short_data. intros H. bind_inv H.
  inversion H; subst. reflexivity.
Qed.

Lemma truthy_not_null (v : json) : Py.truthy v = true -> v <> JNull.
Proof. intros H ->. discriminate. Qed.

Lemma search_loop_filter (items : list json) :
  Forall search_item_ok items ->
  forall shorts,
  exists out,
    YouTubeAPI.search_loop items shorts = Ok (shorts ++ out)%list
    /\ Forall2 summarizes (filter resolvable items) out.
Proof.
  induction 1 as [| item items (v & Hv & Hshort) _ IH]; intros shorts.
  - exists []. split; [cbn; now rewrite app_nil_r | constructor].
  - cbn [YouTubeAPI.search_loop filter]. unfold resolvable at 1.
    rewrite Hv. cbn [rbind].
    destruct (Py.truthy v) eqn:Ht.
    + destruct (Hshort eq_refl) as (short & Hs). rewrite Hs. cbn [rbind].
      destruct (IH (shorts ++ [short])%list) as (out & Hout & Hall).
      exists (short :: out). split.
      * now rewrite Hout, <- app_assoc.
      * constructor; [exists v; auto | assumption].
    + apply IH.
Qed.

Lemma search_loop_bounded (items : list json) :
  forall shorts result,
    YouTubeAPI.search_loop items shorts = Ok result ->
    exists out,
      result = (shorts ++ out)%list
      /\ (length out <= length items)%nat
      /\ Forall has_video_id out.
Proof.
  induction items as [| item items IH]; intros shorts result H.
  - cbn in H. inversion H; subst. exists [].
    split; [now rewrite app_nil_r | split; [apply Nat.le_refl | constructor]].
  - cbn [YouTubeAPI.search_loop] in H.
    apply rbind_Ok in H. destruct H as (v & Hv & H).
    destruct (Py.truthy v) eqn:Ht.
    + apply rbind_Ok in H. destruct H as (short & Hs & H).
      apply IH in H. destruct H as (out & -> & Hlen & Hall).
      exists (short :: out). split; [now rewrite <- app_assoc |].
      split; [cbn; lia |].
      constructor; [| assumption].
      exists v. split; [now apply short_data_video_id with (item := item) |].
      split; [now apply truthy_not_null | assumption].
    + apply IH in H. destruct H as (out & -> & Hlen & Hall).
      exists out. split; [reflexivity | split; [cbn; lia | assumption]].
Qed.

Lemma search_loop_Ok_items (items : list json) :
  forall shorts result,
    YouTubeAPI.search_loop items shorts = Ok result ->
    Forall search_item_ok items.
Proof.
  induction items as [| item items IH]; intros shorts result H;
    [constructor |].
  cbn [YouTubeAPI.search_loop] in H.
  apply rbind_Ok in H. destruct H as (v & Hv & H).
  destruct (Py.truthy v) eqn:Ht.
  - apply rbind_Ok in H. destruct H as (short & Hs & H).
    constructor; [exists v; eauto | eapply IH; eassumption].
  - constructor; [| eapply IH; eassumption].
    exists v. split; [assumption |]. intros Ht'. congruence.
Qed.

(** C7, as the code has it: when every item of the upstream response has its
    id object, and every item with a truthy [videoId] the snippet its
    summary reads, [search_shorts] returns the summaries of exactly the
    items with a truthy [videoId], in the order of the upstream response;
    the items whose id object has no truthy [videoId] are skipped.  On no
    other response does it return: an item without its id object, or with a
    truthy [videoId] and without that snippet, makes the call raise. *)
Theorem search_keeps_resolvable_in_order :
  forall upstream q n w response items,
    upstream (length (calls w)) (YouTubeAPI.search_request q n) = Ok response ->
    YouTubeAPI.response_items response = Ok items ->
    (Forall search_item_ok items ->
     exists out,
       YouTubeAPI.search_shorts upstream q n w
       = (Ok out, after w (YouTubeAPI.search_request q n) [])
       /\ Forall2 summarizes (filter resolvable items) out)
    /\ (forall out w',
           YouTubeAPI.search_shorts upstream q n w = (Ok out, w') ->
           Forall search_item_ok items).
Proof.
  intros upstream q n w response items Hup Hitems. split.
  - intros Hok.
    destruct (search_loop_filter items Hok []) as (out & Hout & Hall).
    exists out. split; [| assumption].
    rewrite search_shorts_run, Hup. cbn [rbind].
    unfold YouTubeAPI.search_normalize. rewrite Hitems. cbn [rbind].
    now rewrite Hout.
  - intros out w' H.
    rewrite search_shorts_run, Hup in H. cbn [rbind] in H.
    unfold YouTubeAPI.search_normalize in H. rewrite Hitems in H.
    cbn [rbind] in H.
    destruct (YouTubeAPI.search_loop items []) as [result | e] eqn:Hloop;
      [| discriminate].
    eapply search_loop_Ok_items; eassumption.
Qed.

Lemma search_item_ok_search_item (video_id : string) :
  video_id <> "" -> search_item_ok (search_item video_id).
Proof.
  intros Hne. exists (JStr video_id). split; [reflexivity |].
  intros _. eexists. reflexivity.
Qed.

Lemma search_item_ok_channel_item : search_item_ok channel_item.
Proof.
  exists JNull. split; [reflexivity | discriminate].
Qed.

Lemma search_keeps_resolvable_in_order_witness :
  exists out,
    YouTubeAPI.search_shorts
      (answering (JDict [("items", JList [search_item "a1"; channel_item;
                                          search_item "a2"])]))
      "cats" 5 w0
    = (Ok out, after w0 (YouTubeAPI.search_request "cats" 5) [])
    /\ Forall2 summarizes [search_item "a1"; search_item "a2"] out.
Proof.
  apply (proj1 (search_keeps_resolvable_in_order
                  (answering (JDict [("items", JList [search_item "a1";
                                                      channel_item;
                                                      search_item "a2"])]))
                  "cats" 5%Z w0
                  (JDict [("items", JList [search_item "a1"; channel_item;
                                           search_item "a2"])])
                  [search_item "a1"; channel_item; search_item "a2"]
                  eq_refl eq_refl)).
  repeat constructor.
  - apply search_item_ok_search_item. discriminate.
  - apply search_item_ok_channel_item.
  - apply search_item_ok_search_item. discriminate.
Defined.

(** C7 as stated fails: an item that has no id object at all is not skipped,
    the whole search raises on it; and so does an item with a video id whose
    snippet has no thumbnails. *)
Lemma search_item_without_id_raises :
  resolvable no_id_item = false
  /\ YouTubeAPI.search_shorts
       (answering (JDict [("items", JList [search_item "a1"; no_id_item])]))
       "cats" 5 w0
     = (Raise (KeyError "'id'"), after w0 (YouTubeAPI.search_request "cats" 5) [])
  /\ resolvable no_thumbnails_item = true
  /\ YouTubeAPI.search_shorts
       (answering (JDict [("items", JList [search_item "a1";
                                           no_thumbnails_item])]))
       "cats" 5 w0
     = (Raise (KeyError "'thumbnails'"),
        after w0 (YouTubeAPI.search_request "cats" 5) []).
Proof. repeat split. Qed.

(** X13: a search with a non-empty [q] is always answered, with HTTP 200 or
    500; under HTTP 200 the data is a list no longer than the item list of
    the upstream response, so no longer than [max_results] whenever the
    upstream sent at most that many items, and every entry's [video_id] is
    there, not null and truthy. *)
Theorem search_length_and_ids :
  forall upstream py_int args q w,
    Main.args_get args "q" = Some q ->
    q <> "" ->
    let max_results := Main.args_get_int py_int args "max_results" 10 in
    exists r w',
      Main.search_shorts upstream py_int args w = (Ok r, w')
      /\ (Main.status r = 200 \/ Main.status r = 500)%Z
      /\ (Main.status r = 200%Z ->
          exists response items out,
            upstream (length (calls w))
                     (YouTubeAPI.search_request q max_results) = Ok response
            /\ YouTubeAPI.response_items response = Ok items
            /\ Main.body r = Main.success_envelope (JList out)
            /\ (length out <= length items)%nat
            /\ ((Z.of_nat (length items) <= max_results)%Z ->
                (Z.of_nat (length out) <= max_results)%Z)
            /\ Forall has_video_id out).
Proof.
  intros upstream py_int args q w Hq Hne max_results.
  unfold Main.search_shorts, try_except, bind. rewrite Hq.
  destruct q as [| c q']; [contradiction |].
  fold max_results. rewrite search_shorts_run.
  destruct (upstream (length (calls w)) _) as [response | e] eqn:Hup;
    cbn [rbind].
  - destruct (YouTubeAPI.search_normalize response) as [result | e] eqn:Hn.
    + do 2 eexists. split; [reflexivity |]. split; [now left |].
      intros _. unfold YouTubeAPI.search_normalize in Hn.
      apply rbind_Ok in Hn. destruct Hn as (items & Hitems & Hloop).
      apply search_loop_bounded in Hloop.
      destruct Hloop as (out & -> & Hlen & Hall).
      exists response, items, out. cbn [app Main.body Main.jsonify].
      repeat split; try assumption. lia.
    + do 2 eexists. split; [reflexivity |]. split; [now right |].
      cbn. discriminate.
  - do 2 eexists. split; [reflexivity |]. split; [now right |].
    cbn. discriminate.
Qed.

Lemma search_length_and_ids_witness :
  exists r w',
    Main.search_shorts
      (answering (JDict [("items", JList [search_item "a1"; search_item "a2"])]))
      Py.int_ascii [("q", "cats"); ("max_results", "2")] w0 = (Ok r, w')
    /\ (Main.status r = 200 \/ Main.status r = 500)%Z
    /\ (Main.status r = 200%Z ->
        exists response items out,
          answering (JDict [("items", JList [search_item "a1";
                                             search_item "a2"])])
                    (length (calls w0)) (YouTubeAPI.search_request "cats" 2)
            = Ok response
          /\ YouTubeAPI.response_items response = Ok items
          /\ Main.body r = Main.success_envelope (JList out)
          /\ (length out <= length items)%nat
          /\ ((Z.of_nat (length items) <= 2)%Z ->
              (Z.of_nat (length out) <= 2)%Z)
          /\ Forall has_video_id out).
Proof.
  apply (search_length_and_ids
           (answering (JDict [("items", JList [search_item "a1";
                                               search_item "a2"])]))
           Py.int_ascii [("q", "cats"); ("max_results", "2")] "cats" w0).
  - reflexivity.
  - discriminate.
Defined.


(** ** Trending: the order of the entries *)

Lemma trending_loop_Forall2 (items : list json) :
  forall trending result,
    YouTubeAPI.trending_loop items trending = Ok result
    <-> exists out,
        result = (trending ++ out)%list
        /\ Forall2 (fun item entry => YouTubeAPI.trending_data item = Ok entry)
                   items out.
Proof.
  induction items as [| item items IH]; intros trending result.
  - cbn. split.
    + intros H. inversion H; subst. exists [].
      split; [now rewrite app_nil_r | constructor].
    + intros (out & -> & Hall). inversion Hall; subst.
      now rewrite app_nil_r.
  - cbn [YouTubeAPI.trending_loop]. split.
    + intros H. apply rbind_Ok in H. destruct H as (entry & He & H).
      apply IH in H. destruct H as (out & -> & Hall).
      exists (entry :: out). split; [now rewrite <- app_assoc |].
      now constructor.
    + intros (out & -> & Hall). inversion Hall as [| ? entry ? out' He Hall']; subst.
      rewrite He. cbn [rbind]. apply IH.
      exists out'. split; [now rewrite <- app_assoc | assumption].
Qed.

(** C8: for an upstream chart response with item list [items],
    [get_trending_shorts] returns [out] exactly when [out] lists, position by
    position and in the order of [items], the entry each item is normalized
    to: the i-th entry is the normalization of the i-th upstream item, and
    nothing is sorted. *)
Theorem trending_preserves_order :
  forall upstream region n w response items,
    upstream (length (calls w)) (YouTubeAPI.trending_request region n)
      = Ok response ->
    YouTubeAPI.response_items response = Ok items ->
    forall out w',
      YouTubeAPI.get_trending_shorts upstream region n w = (Ok out, w')
      <-> (Forall2 (fun item entry => YouTubeAPI.trending_data item = Ok entry)
                   items out
           /\ w' = after w (YouTubeAPI.trending_request region n) []).
Proof.
  intros upstream region n w response items Hup Hitems out w'.
  rewrite get_trending_shorts_run, Hup. cbn [rbind].
  unfold YouTubeAPI.trending_normalize. rewrite Hitems. cbn [rbind].
  pose proof (trending_loop_Forall2 items [] out) as Hloop.
  split.
  - intros H.
    destruct (YouTubeAPI.trending_loop items []) as [result | e];
      inversion H; subst.
    split; [| reflexivity].
    destruct (proj1 Hloop eq_refl) as (out' & -> & Hall). exact Hall.
  - intros [Hall ->].
    rewrite (proj2 Hloop (ex_intro _ out (conj eq_refl Hall))). reflexivity.
Qed.

Lemma trending_preserves_order_witness :
  exists e1 e2 e3,
    YouTubeAPI.get_trending_shorts (answering (JDict [("items", JList chart)]))
                                   "US" 3 w0
    = (Ok [e1; e2; e3], after w0 (YouTubeAPI.trending_request "US" 3) [])
    /\ e1.["video_id"] = Ok (JStr "low")
    /\ e2.["video_id"] = Ok (JStr "top")
    /\ e3.["video_id"] = Ok (JStr "mid").
Proof.
  do 3 eexists. split.
  - apply (trending_preserves_order
             (answering (JDict [("items", JList chart)])) "US" 3%Z w0
             (JDict [("items", JList chart)]) chart eq_refl eq_refl).
    split; [| reflexivity].
    repeat constructor.
  - repeat split.
Defined.

(** ** The [max_results] parameter *)

Lemma args_get_without_other (key other : string) (args : Main.multidict) :
  (other =? key) = false ->
  Main.args_get (Main.args_without key args) other = Main.args_get args other.
Proof.
  intros Hne. unfold Main.args_without.
  induction args as [| [k v] args IH]; [reflexivity |].
  cbn [filter fst Main.args_get].
  destruct (k =? key) eqn:Hk; cbn [negb].
  - apply String.eqb_eq in Hk. subst k.
    rewrite String.eqb_sym, Hne. exact IH.
  - cbn [Main.args_get]. now rewrite IH.
Qed.

Lemma args_get_without_same (key : string) (args : Main.multidict) :
  Main.args_get (Main.args_without key args) key = None.
Proof.
  unfold Main.args_without.
  induction args as [| [k v] args IH]; [reflexivity |].
  cbn [filter fst].
  destruct (k =? key) eqn:Hk; cbn [negb]; [exact IH |].
  cbn [Main.args_get]. now rewrite Hk.
Qed.

(** C10: when [max_results] is given a value [int] refuses, the search and
    the trending handlers use 10 for it and answer exactly as they answer
    the same request without any [max_results]. *)
Theorem unparseable_max_results_is_default :
  forall upstream py_int args text,
    Main.args_get args "max_results" = Some text ->
    py_int text = None ->
    Main.args_get_int py_int args "max_results" 10 = 10%Z
    /\ (forall w,
           Main.search_shorts upstream py_int args w
           = Main.search_shorts upstream py_int
                                (Main.args_without "max_results" args) w)
    /\ (forall w,
           Main.get_trending_shorts upstream py_int args w
           = Main.get_trending_shorts upstream py_int
                                      (Main.args_without "max_results" args) w).
Proof.
  intros upstream py_int args text Hget Hint.
  assert (Hten : Main.args_get_int py_int args "max_results" 10 = 10%Z).
  { unfold Main.args_get_int. now rewrite Hget, Hint. }
  assert (Hten' : Main.args_get_int
                    py_int (Main.args_without "max_results" args)
                    "max_results" 10 = 10%Z).
  { unfold Main.args_get_int. now rewrite args_get_without_same. }
  split; [exact Hten |]. split; intros w.
  - unfold Main.search_shorts.
    rewrite Hten, Hten', (args_get_without_other "max_results" "q");
      reflexivity.
  - unfold Main.get_trending_shorts, Main.args_get_default.
    rewrite Hten, Hten', (args_get_without_other "max_results" "region");
      reflexivity.
Qed.

Lemma unparseable_max_results_is_default_witness :
  Main.args_get_int Py.int_ascii
                    [("q", "cats"); ("max_results", "many")] "max_results" 10
  = 10%Z
  /\ Main.search_shorts (answering (JDict [("items", JList chart)]))
                        Py.int_ascii
                        [("q", "cats"); ("max_results", "many")] w0
     = Main.search_shorts (answering (JDict [("items", JList chart)]))
                          Py.int_ascii [("q", "cats")] w0
  /\ Main.get_trending_shorts (answering (JDict [("items", JList chart)]))
                              Py.int_ascii
                              [("region", "GB"); ("max_results", "many")] w0
     = Main.get_trending_shorts (answering (JDict [("items", JList chart)]))
                                Py.int_ascii [("region", "GB")] w0.
Proof.
  split; [| split].
  - apply (unparseable_max_results_is_default
             (answering (JDict [("items", JList chart)])) Py.int_ascii
             [("q", "cats"); ("max_results", "many")] "many");
      reflexivity.
  - apply (proj1 (proj2 (unparseable_max_results_is_default
                           (answering (JDict [("items", JList chart)]))
                           Py.int_ascii
                           [("q", "cats"); ("max_results", "many")] "many"
                           eq_refl eq_refl)) w0).
  - apply (proj2 (proj2 (unparseable_max_results_is_default
                           (answering (JDict [("items", JList chart)]))
                           Py.int_ascii
                           [("region", "GB"); ("max_results", "many")] "many"
                           eq_refl eq_refl)) w0).
Defined.

(** ** The channel listing *)

Lemma get_channel_shorts_run upstream channel_id n w :
  YouTubeAPI.get_channel_shorts upstream channel_id n w
  = match rbind (upstream (length (calls w))
                          (YouTubeAPI.channel_request channel_id n))
                YouTubeAPI.channel_normalize with
    | Ok a => (Ok a, after w (YouTubeAPI.channel_request channel_id n) [])
    | Raise e =>
        (Raise e,
         after w (YouTubeAPI.channel_request channel_id n) (printed e))
    end.
Proof. apply call_run. Qed.

Lemma channel_short_data_search (item video_id : json) :
  YouTubeAPI.channel_short_data item video_id
  = rmap (without_key "channel_title") (YouTubeAPI.short_data item video_id).
Proof.
  unfold YouTubeAPI.channel_short_data, YouTubeAPI.short_data.
  destruct (item.["snippet"]) as [snippet | e]; [| reflexivity].
  cbn [rbind].
  destruct snippet; try reflexivity.
  cbn [Py.get rbind].
  destruct ((JDict d).["thumbnails"]) as [thumbnails | e]; [| reflexivity].
  cbn [rbind].
  destruct (thumbnails.["default"]) as [default | e]; [| reflexivity].
  cbn [rbind].
  destruct (default.["url"]) as [url | e]; reflexivity.
Qed.

Lemma channel_loop_search (items : list json) :
  forall shorts,
    YouTubeAPI.channel_loop items (map (without_key "channel_title") shorts)
    = rmap (map (without_key "channel_title"))
           (YouTubeAPI.search_loop items shorts).
Proof.
  induction items as [| item items IH]; intros shorts; [reflexivity |].
  cbn [YouTubeAPI.channel_loop YouTubeAPI.search_loop].
  destruct (YouTubeAPI.video_id_of item) as [video_id | e]; [| reflexivity].
  cbn [rbind].
  destruct (Py.truthy video_id); [| apply IH].
  rewrite channel_short_data_search.
  destruct (YouTubeAPI.short_data item video_id) as [short | e];
    [| reflexivity].
  cbn [rbind rmap].
  rewrite <- IH, map_app. reflexivity.
Qed.

(** X1: [get_channel_shorts] normalizes a response as [search_shorts] does, each
    record losing its [channel_title]: it returns on the same responses,
    raises the same exception on the others, keeps the same items in the
    same order. *)
Theorem channel_normalize_is_search_without_channel_title :
  forall response : json,
    YouTubeAPI.channel_normalize response
    = rmap (map (without_key "channel_title"))
           (YouTubeAPI.search_normalize response).
Proof.
  intros response.
  unfold YouTubeAPI.channel_normalize, YouTubeAPI.search_normalize.
  destruct (YouTubeAPI.response_items response) as [items | e];
    [| reflexivity].
  cbn [rbind]. apply (channel_loop_search items []).
Qed.

(** X2: a channel listing whose items carry their id object, and the snippet
    where a video id is there, gives the summaries of the items with a truthy
    [videoId] in upstream order, none of them with a [channel_title]. *)
Theorem channel_keeps_resolvable_in_order :
  forall upstream channel_id n w response items,
    upstream (length (calls w)) (YouTubeAPI.channel_request channel_id n)
      = Ok response ->
    YouTubeAPI.response_items response = Ok items ->
    Forall search_item_ok items ->
    exists out,
      YouTubeAPI.get_channel_shorts upstream channel_id n w
      = (Ok (map (without_key "channel_title") out),
         after w (YouTubeAPI.channel_request channel_id n) [])
      /\ Forall2 summarizes (filter resolvable items) out
      /\ Forall (fun short =>
                   (without_key "channel_title" short).["channel_title"]
                   = Raise (KeyError "'channel_title'")) out.
Proof.
  intros upstream channel_id n w response items Hup Hitems Hok.
  destruct (search_loop_filter items Hok []) as (out & Hout & Hall).
  exists out. split; [| split; [assumption |]].
  - rewrite get_channel_shorts_run, Hup. cbn [rbind].
    unfold YouTubeAPI.channel_normalize. rewrite Hitems. cbn [rbind].
    pose proof (channel_loop_search items []) as Hloop.
    cbn [map] in Hloop. rewrite Hloop, Hout. reflexivity.
  - clear Hout. remember (filter resolvable items) as kept eqn:Hkept.
    clear Hkept. induction Hall as [| item short kept out Hs _ IH];
      constructor; [| exact IH].
    destruct Hs as (v & _ & Hs). apply short_data_Ok_iff in Hs.
    destruct Hs as (sn & url & _ & _ & ->). reflexivity.
Qed.

Lemma channel_keeps_resolvable_in_order_witness :
  exists out,
    YouTubeAPI.get_channel_shorts
      (answering (JDict [("items", JList [search_item "a1"; channel_item;
                                          search_item "a2"])]))
      "UC1" 5 w0
    = (Ok (map (without_key "channel_title") out),
       after w0 (YouTubeAPI.channel_request "UC1" 5) [])
    /\ Forall2 summarizes [search_item "a1"; search_item "a2"] out
    /\ Forall (fun short =>
                 (without_key "channel_title" short).["channel_title"]
                 = Raise (KeyError "'channel_title'")) out.
Proof.
  apply (channel_keeps_resolvable_in_order
           (answering (JDict [("items", JList [search_item "a1"; channel_item;
                                               search_item "a2"])]))
           "UC1" 5%Z w0
           (JDict [("items", JList [search_item "a1"; channel_item;
                                    search_item "a2"])])
           [search_item "a1"; channel_item; search_item "a2"]
           eq_refl eq_refl).
  repeat constructor.
  - apply search_item_ok_search_item. discriminate.
  - apply search_item_ok_channel_item.
  - apply search_item_ok_search_item. discriminate.
Defined.

(** ** Failures at the client *)

(** X3: when the upstream call raises, each of the four methods raises the same
    exception to its caller after that one call: nothing is retried, caught
    or replaced, and a line is printed for an [HttpError] only. *)
Theorem client_reraises_upstream_failure :
  forall upstream (e : exn) w,
    (forall q n,
        upstream (length (calls w)) (YouTubeAPI.search_request q n) = Raise e ->
        YouTubeAPI.search_shorts upstream q n w
        = (Raise e, after w (YouTubeAPI.search_request q n) (printed e)))
    /\ (forall video_id,
           upstream (length (calls w)) (YouTubeAPI.details_request video_id)
             = Raise e ->
           YouTubeAPI.get_video_details upstream video_id w
           = (Raise e,
              after w (YouTubeAPI.details_request video_id) (printed e)))
    /\ (forall region n,
           upstream (length (calls w)) (YouTubeAPI.trending_request region n)
             = Raise e ->
           YouTubeAPI.get_trending_shorts upstream region n w
           = (Raise e,
              after w (YouTubeAPI.trending_request region n) (printed e)))
    /\ (forall channel_id n,
           upstream (length (calls w))
                    (YouTubeAPI.channel_request channel_id n) = Raise e ->
           YouTubeAPI.get_channel_shorts upstream channel_id n w
           = (Raise e,
              after w (YouTubeAPI.channel_request channel_id n) (printed e))).
Proof.
  intros upstream e w. repeat apply conj; intros.
  - rewrite search_shorts_run, H. reflexivity.
  - rewrite get_video_details_run, H. reflexivity.
  - rewrite get_trending_shorts_run, H. reflexivity.
  - rewrite get_channel_shorts_run, H. reflexivity.
Qed.

Lemma client_reraises_upstream_failure_witness :
  YouTubeAPI.get_channel_shorts (failing (HttpError "quotaExceeded")) "UC1" 5 w0
  = (Raise (HttpError "quotaExceeded"),
     mkWorld [YouTubeAPI.channel_request "UC1" 5]
             ["An HTTP error occurred: quotaExceeded"])
  /\ YouTubeAPI.search_shorts (failing (TransportError "timed out")) "cats" 5 w0
     = (Raise (TransportError "timed out"),
        mkWorld [YouTubeAPI.search_request "cats" 5] []).
Proof.
  destruct (client_reraises_upstream_failure
              (failing (HttpError "quotaExceeded"))
              (HttpError "quotaExceeded") w0) as (_ & _ & _ & Hc).
  destruct (client_reraises_upstream_failure
              (failing (TransportError "timed out"))
              (TransportError "timed out") w0) as (Hs & _).
  split.
  - apply (Hc "UC1" 5%Z). reflexivity.
  - apply (Hs "cats" 5%Z). reflexivity.
Defined.

(** ** What the handlers answer *)

(** X4: no exception leaves a handler: whatever the request, the upstream and the
    world, a search is answered 200, 400 or 500, a detail lookup 200, 404 or
    500, a trending request 200 or 500, a success envelope under 200 and an
    error envelope under the other codes. *)
Theorem handlers_always_answer :
  forall upstream py_int w,
    (forall args,
        exists r w',
          Main.search_shorts upstream py_int args w = (Ok r, w')
          /\ (success_answer r \/ error_answer 400 r \/ error_answer 500 r))
    /\ (forall video_id,
           exists r w',
             Main.get_short_details upstream video_id w = (Ok r, w')
             /\ (success_answer r \/ error_answer 404 r \/ error_answer 500 r))
    /\ (forall args,
           exists r w',
             Main.get_trending_shorts upstream py_int args w = (Ok r, w')
             /\ (success_answer r \/ error_answer 500 r)).
Proof.
  intros upstream py_int w. repeat apply conj.
  - intros args. unfold Main.search_shorts, try_except, bind.
    destruct (Main.args_get args "q") as [[| c q] |].
    + do 2 eexists. split; [reflexivity |]. right; left.
      split; [reflexivity | eexists; reflexivity].
    + rewrite search_shorts_run.
      destruct (rbind _ _) as [out | e]; do 2 eexists;
        (split; [reflexivity |]).
      * left. split; [reflexivity | eexists; reflexivity].
      * right; right. split; [reflexivity | eexists; reflexivity].
    + do 2 eexists. split; [reflexivity |]. right; left.
      split; [reflexivity | eexists; reflexivity].
  - intros video_id. unfold Main.get_short_details, try_except, bind.
    rewrite get_video_details_run.
    destruct (rbind _ _) as [[d |] | e].
    + destruct (Py.truthy d); do 2 eexists; (split; [reflexivity |]).
      * left. split; [reflexivity | eexists; reflexivity].
      * right; left. split; [reflexivity | eexists; reflexivity].
    + do 2 eexists. split; [reflexivity |]. right; left.
      split; [reflexivity | eexists; reflexivity].
    + do 2 eexists. split; [reflexivity |]. right; right.
      split; [reflexivity | eexists; reflexivity].
  - intros args. unfold Main.get_trending_shorts, try_except, bind.
    rewrite get_trending_shorts_run.
    destruct (rbind _ _) as [out | e]; do 2 eexists; (split; [reflexivity |]).
    + left. split; [reflexivity | eexists; reflexivity].
    + right. split; [reflexivity | eexists; reflexivity].
Qed.

(** X5: a search with a non-empty [q], a detail lookup and a trending request
    each execute exactly one upstream call, whatever it answers: the search
    and the chart request carry [max_results] as [int] read it (any integer:
    nothing clamps it), or 10, the chart request the [region] given, or
    [US]. *)
Theorem handlers_call_upstream_once :
  forall upstream py_int w,
    (forall args q,
        Main.args_get args "q" = Some q -> q <> "" ->
        calls (snd (Main.search_shorts upstream py_int args w))
        = (calls w
           ++ [YouTubeAPI.search_request
                 q (Main.args_get_int py_int args "max_results" 10)])%list)
    /\ (forall video_id,
           calls (snd (Main.get_short_details upstream video_id w))
           = (calls w ++ [YouTubeAPI.details_request video_id])%list)
    /\ (forall args,
           calls (snd (Main.get_trending_shorts upstream py_int args w))
           = (calls w
              ++ [YouTubeAPI.trending_request
                    (Main.args_get_default args "region" "US")
                    (Main.args_get_int py_int args "max_results" 10)])%list)
    /\ (forall args text n,
           Main.args_get args "max_results" = Some text ->
           py_int text = Some n ->
           Main.args_get_int py_int args "max_results" 10 = n).
Proof.
  intros upstream py_int w. repeat apply conj.
  - intros args q Hq Hne. unfold Main.search_shorts, try_except, bind.
    rewrite Hq. destruct q as [| c q]; [contradiction |].
    rewrite search_shorts_run. destruct (rbind _ _); reflexivity.
  - intros video_id. unfold Main.get_short_details, try_except, bind.
    rewrite get_video_details_run.
    destruct (rbind _ _) as [[d |] | e]; try reflexivity.
    destruct (Py.truthy d); reflexivity.
  - intros args. unfold Main.get_trending_shorts, try_except, bind.
    rewrite get_trending_shorts_run. destruct (rbind _ _); reflexivity.
  - intros args text n Hget Hint. unfold Main.args_get_int.
    now rewrite Hget, Hint.
Qed.

Lemma handlers_call_upstream_once_witness :
  calls (snd (Main.search_shorts (failing (HttpError "quotaExceeded"))
                                 Py.int_ascii
                                 [("q", "cats"); ("max_results", "-3")] w0))
  = [YouTubeAPI.search_request "cats" (-3)]
  /\ Main.args_get_int Py.int_ascii [("q", "cats"); ("max_results", "-3")]
                       "max_results" 10 = (-3)%Z.
Proof.
  destruct (handlers_call_upstream_once
              (failing (HttpError "quotaExceeded")) Py.int_ascii w0)
    as (Hs & _ & _ & Hn).
  split.
  - apply (Hs [("q", "cats"); ("max_results", "-3")] "cats");
      [reflexivity | discriminate].
  - apply (Hn [("q", "cats"); ("max_results", "-3")] "-3"); reflexivity.
Defined.

(** ** Omitted parameters *)

Lemma args_get_app (a b : Main.multidict) (key : string) :
  Main.args_get (a ++ b)%list key
  = match Main.args_get a key with
    | Some v => Some v
    | None => Main.args_get b key
    end.
Proof.
  induction a as [| [k v] a IH]; [reflexivity |].
  cbn [app Main.args_get]. destruct (k =? key); [reflexivity | exact IH].
Qed.

(** X6: a request that leaves [max_results] out is answered as the same request
    with [max_results=10], and a trending request that leaves [region] out as
    the same request with [region=US], once [int] reads [10] as 10. *)
Theorem omitted_parameters_are_defaults :
  forall upstream py_int,
    py_int "10" = Some 10%Z ->
    (forall args w,
        Main.args_get args "max_results" = None ->
        Main.search_shorts upstream py_int args w
        = Main.search_shorts upstream py_int
                             (args ++ [("max_results", "10")])%list w
        /\ Main.get_trending_shorts upstream py_int args w
           = Main.get_trending_shorts upstream py_int
                                      (args ++ [("max_results", "10")])%list
                                      w)
    /\ (forall args w,
           Main.args_get args "region" = None ->
           Main.get_trending_shorts upstream py_int args w
           = Main.get_trending_shorts upstream py_int
                                      (args ++ [("region", "US")])%list w).
Proof.
  intros upstream py_int Hten. split.
  - intros args w Hnone.
    assert (Hint : Main.args_get_int
                     py_int (args ++ [("max_results", "10")])%list
                     "max_results" 10
                   = Main.args_get_int py_int args "max_results" 10).
    { unfold Main.args_get_int. rewrite args_get_app, Hnone.
      cbn [Main.args_get]. rewrite String.eqb_refl. now rewrite Hten. }
    split.
    + unfold Main.search_shorts. rewrite Hint, args_get_app.
      cbn [Main.args_get].
      destruct (Main.args_get args "q") as [[| c q] |]; reflexivity.
    + unfold Main.get_trending_shorts, Main.args_get_default.
      rewrite Hint, args_get_app. cbn [Main.args_get].
      destruct (Main.args_get args "region"); reflexivity.
  - intros args w Hnone.
    unfold Main.get_trending_shorts, Main.args_get_default, Main.args_get_int.
    rewrite !args_get_app, Hnone. cbn [Main.args_get].
    destruct (Main.args_get args "max_results"); reflexivity.
Qed.

Lemma omitted_parameters_are_defaults_witness :
  Main.get_trending_shorts (answering (JDict [("items", JList chart)]))
                           Py.int_ascii [] w0
  = Main.get_trending_shorts (answering (JDict [("items", JList chart)]))
                             Py.int_ascii [("max_results", "10")] w0
  /\ Main.get_trending_shorts (answering (JDict [("items", JList chart)]))
                              Py.int_ascii [] w0
     = Main.get_trending_shorts (answering (JDict [("items", JList chart)]))
                                Py.int_ascii [("region", "US")] w0.
Proof.
  destruct (omitted_parameters_are_defaults
              (answering (JDict [("items", JList chart)])) Py.int_ascii
              eq_refl) as (Hm & Hr).
  split.
  - apply (proj2 (Hm [] w0 eq_refl)).
  - apply (Hr [] w0 eq_refl).
Defined.

(** ** The lookup reads one item *)

(** X7: a detail lookup reads the first item of the upstream list and nothing
    after it: two responses whose item lists start with the same item give
    the same result, record or exception. *)
Theorem details_read_first_item_only :
  forall (video_id : string) (response response' item : json) rest rest',
    Py.get response "items" JNull = Ok (JList (item :: rest)) ->
    Py.get response' "items" JNull = Ok (JList (item :: rest')) ->
    YouTubeAPI.details_normalize video_id response
    = YouTubeAPI.details_normalize video_id response'
    /\ YouTubeAPI.details_normalize video_id response
       = rbind (YouTubeAPI.video_details video_id item)
               (fun details => Ok (Some details)).
Proof.
  intros video_id response response' item rest rest' H H'.
  rewrite (details_normalize_cons _ _ _ _ H).
  rewrite (details_normalize_cons _ _ _ _ H').
  split; reflexivity.
Qed.

Lemma details_read_first_item_only_witness :
  YouTubeAPI.details_normalize
    "x" (JDict [("items", JList [video_item "zz" []; no_content_item])])
  = YouTubeAPI.details_normalize
      "x" (JDict [("items", JList [video_item "zz" []])])
  /\ YouTubeAPI.details_normalize
       "x" (JDict [("items", JList [video_item "zz" []; no_content_item])])
     = rbind (YouTubeAPI.video_details "x" (video_item "zz" []))
             (fun details => Ok (Some details)).
Proof.
  apply (details_read_first_item_only
           "x"
           (JDict [("items", JList [video_item "zz" []; no_content_item])])
           (JDict [("items", JList [video_item "zz" []])])
           (video_item "zz" []) [no_content_item] []);
    reflexivity.
Defined.

(** ** What is printed *)

Lemma quiet_Ok {A} (a : A) : quiet (Ok a).
Proof. intros e H. discriminate. Qed.

Lemma quiet_rbind {A B} (r : result A) (k : A -> result B) :
  quiet r -> (forall a, quiet (k a)) -> quiet (rbind r k).
Proof.
  intros Hr Hk e H. destruct r as [a | e']; cbn in H.
  - exact (Hk a e H).
  - inversion H; subst. now apply Hr.
Qed.

Lemma quiet_getitem (v : json) (k : string) : quiet v.[k].
Proof.
  intros e H. destruct v; cbn in H; try (inversion H; reflexivity).
  destruct (Py.lookup k d); inversion H; reflexivity.
Qed.

Lemma quiet_getitem0 (v : json) : quiet (Py.getitem0 v).
Proof.
  intros e H. destruct v as [| | | s | l |];
    cbn in H; try (inversion H; reflexivity).
  - destruct s; inversion H; reflexivity.
  - destruct l; inversion H; reflexivity.
Qed.

Lemma quiet_get (v : json) (k : string) (default : json) :
  quiet (Py.get v k default).
Proof.
  intros e H. destruct v; cbn in H; inversion H; reflexivity.
Qed.

Lemma quiet_iter (v : json) : quiet (Py.iter v).
Proof.
  intros e H. destruct v; cbn in H; inversion H; reflexivity.
Qed.

(** Goes through a chain of reads. *)
Ltac quiet_chain :=
  repeat first
    [ apply quiet_Ok
    | apply quiet_getitem
    | apply quiet_getitem0
    | apply quiet_get
    | apply quiet_iter
    | apply quiet_rbind; [| intros ?] ].

Lemma quiet_video_id_of (item : json) : quiet (YouTubeAPI.video_id_of item).
Proof. unfold YouTubeAPI.video_id_of. quiet_chain. Qed.

Lemma quiet_short_data (item v : json) : quiet (YouTubeAPI.short_data item v).
Proof. unfold YouTubeAPI.short_data. quiet_chain. Qed.

Lemma quiet_channel_short_data (item v : json) :
  quiet (YouTubeAPI.channel_short_data item v).
Proof. unfold YouTubeAPI.channel_short_data. quiet_chain. Qed.

Lemma quiet_video_details (video_id : string) (item : json) :
  quiet (YouTubeAPI.video_details video_id item).
Proof. unfold YouTubeAPI.video_details. quiet_chain. Qed.

Lemma quiet_trending_data (item : json) : quiet (YouTubeAPI.trending_data item).
Proof. unfold YouTubeAPI.trending_data. quiet_chain. Qed.

Lemma quiet_response_items (response : json) :
  quiet (YouTubeAPI.response_items response).
Proof. unfold YouTubeAPI.response_items. quiet_chain. Qed.

Lemma quiet_search_loop (items : list json) :
  forall shorts, quiet (YouTubeAPI.search_loop items shorts).
Proof.
  induction items as [| item items IH]; intros shorts;
    cbn [YouTubeAPI.search_loop]; [apply quiet_Ok |].
  apply quiet_rbind; [apply quiet_video_id_of | intros v].
  destruct (Py.truthy v); [| apply IH].
  apply quiet_rbind; [apply quiet_short_data | intros short; apply IH].
Qed.

Lemma quiet_channel_loop (items : list json) :
  forall shorts, quiet (YouTubeAPI.channel_loop items shorts).
Proof.
  induction items as [| item items IH]; intros shorts;
    cbn [YouTubeAPI.channel_loop]; [apply quiet_Ok |].
  apply quiet_rbind; [apply quiet_video_id_of | intros v].
  destruct (Py.truthy v); [| apply IH].
  apply quiet_rbind; [apply quiet_channel_short_data | intros short; apply IH].
Qed.

Lemma quiet_trending_loop (items : list json) :
  forall trending, quiet (YouTubeAPI.trending_loop items trending).
Proof.
  induction items as [| item items IH]; intros trending;
    cbn [YouTubeAPI.trending_loop]; [apply quiet_Ok |].
  apply quiet_rbind; [apply quiet_trending_data | intros entry; apply IH].
Qed.

Lemma quiet_details_normalize (video_id : string) (response : json) :
  quiet (YouTubeAPI.details_normalize video_id response).
Proof.
  unfold YouTubeAPI.details_normalize.
  apply quiet_rbind; [apply quiet_get | intros items].
  destruct (Py.truthy items); [| apply quiet_Ok].
  apply quiet_rbind; [apply quiet_getitem | intros items'].
  apply quiet_rbind; [apply quiet_getitem0 | intros item].
  apply quiet_rbind; [apply quiet_video_details | intros d; apply quiet_Ok].
Qed.

(** One call of the client prints what the upstream's answer calls for. *)
Lemma call_stdout {A} upstream (req : upstream_call) (norm : json -> result A) w :
  (forall response, quiet (norm response)) ->
  stdout (snd (try_except
                 (response <- YouTubeAPI.execute upstream req ;;
                  lift (norm response))%io
                 YouTubeAPI.except_HttpError w))
  = (stdout w ++ printed_for (upstream (length (calls w)) req))%list.
Proof.
  intros Hquiet. rewrite call_run.
  destruct (upstream (length (calls w)) req) as [response | e]; cbn [rbind].
  - destruct (norm response) as [a | e] eqn:Hn; [reflexivity |].
    cbn. now rewrite (Hquiet response e Hn).
  - reflexivity.
Qed.

(** X8: the only line the client ever prints is the one for an [HttpError] of
    the upstream call: a method whose call was answered, or failed with
    another exception, prints nothing, whatever the normalization of the
    answer does. *)
Theorem client_prints_only_upstream_http_errors :
  forall upstream w,
    (forall q n,
        stdout (snd (YouTubeAPI.search_shorts upstream q n w))
        = (stdout w
           ++ printed_for (upstream (length (calls w))
                                    (YouTubeAPI.search_request q n)))%list)
    /\ (forall video_id,
           stdout (snd (YouTubeAPI.get_video_details upstream video_id w))
           = (stdout w
              ++ printed_for (upstream (length (calls w))
                                       (YouTubeAPI.details_request video_id)))%list)
    /\ (forall region n,
           stdout (snd (YouTubeAPI.get_trending_shorts upstream region n w))
           = (stdout w
              ++ printed_for (upstream (length (calls w))
                                       (YouTubeAPI.trending_request region n)))%list)
    /\ (forall channel_id n,
           stdout (snd (YouTubeAPI.get_channel_shorts upstream channel_id n w))
           = (stdout w
              ++ printed_for (upstream (length (calls w))
                                       (YouTubeAPI.channel_request
                                          channel_id n)))%list).
Proof.
  intros upstream w. repeat apply conj; intros; apply call_stdout;
    intros response.
  - unfold YouTubeAPI.search_normalize.
    apply quiet_rbind;
      [apply quiet_response_items | intros; apply quiet_search_loop].
  - apply quiet_details_normalize.
  - unfold YouTubeAPI.trending_normalize.
    apply quiet_rbind;
      [apply quiet_response_items | intros; apply quiet_trending_loop].
  - unfold YouTubeAPI.channel_normalize.
    apply quiet_rbind;
      [apply quiet_response_items | intros; apply quiet_channel_loop].
Qed.

(** ** Entry by entry *)

Lemma Forall2_nth_error {A B} (R : A -> B -> Prop) (l : list A) (l' : list B) :
  Forall2 R l l' ->
  length l' = length l
  /\ forall i a, nth_error l i = Some a ->
                 exists b, nth_error l' i = Some b /\ R a b.
Proof.
  induction 1 as [| a b l l' Hab _ [IHlen IH]].
  - split; [reflexivity |]. intros [| i] a H; discriminate.
  - split; [cbn; now rewrite IHlen |].
    intros [| i] a' H; cbn in H |- *.
    + inversion H; subst. eauto.
    + now apply IH.
Qed.

Lemma trending_data_video_id (item entry : json) :
  YouTubeAPI.trending_data item = Ok entry ->
  entry.["video_id"] = item.["id"].
Proof.
  intros H. apply trending_data_Ok_iff in H.
  destruct H as (id & sn & st & url & Hid & _ & _ & _ & ->).
  now rewrite Hid.
Qed.

(** X9: a trending listing drops nothing and adds nothing: what
    [get_trending_shorts] returns has one entry per upstream item, and the
    entry at each position carries as [video_id] the [id] of the upstream
    item at that position, as it was sent. *)
Theorem trending_one_entry_per_item :
  forall upstream region n w out w',
    YouTubeAPI.get_trending_shorts upstream region n w = (Ok out, w') ->
    exists response items,
      upstream (length (calls w)) (YouTubeAPI.trending_request region n)
        = Ok response
      /\ YouTubeAPI.response_items response = Ok items
      /\ length out = length items
      /\ forall i item,
          nth_error items i = Some item ->
          exists entry,
            nth_error out i = Some entry
            /\ YouTubeAPI.trending_data item = Ok entry
            /\ entry.["video_id"] = item.["id"].
Proof.
  intros upstream region n w out w' H.
  rewrite get_trending_shorts_run in H.
  destruct (rbind _ _) as [out' | e] eqn:Hrun; inversion H; subst.
  apply rbind_Ok in Hrun. destruct Hrun as (response & Hup & Hn).
  unfold YouTubeAPI.trending_normalize in Hn.
  apply rbind_Ok in Hn. destruct Hn as (items & Hitems & Hloop).
  apply trending_loop_Forall2 in Hloop.
  destruct Hloop as (out' & -> & Hall). cbn [app].
  apply Forall2_nth_error in Hall. destruct Hall as [Hlen Hnth].
  exists response, items. repeat split; try assumption.
  intros i item Hi. destruct (Hnth i item Hi) as (entry & He & Hd).
  exists entry. repeat split; try assumption.
  now apply trending_data_video_id.
Qed.

Lemma trending_one_entry_per_item_witness :
  exists response items,
    answering (JDict [("items", JList chart)]) (length (calls w0))
              (YouTubeAPI.trending_request "US" 3) = Ok response
    /\ YouTubeAPI.response_items response = Ok items
    /\ length chart_entries = length items
    /\ forall i item,
        nth_error items i = Some item ->
        exists entry,
          nth_error chart_entries i = Some entry
          /\ YouTubeAPI.trending_data item = Ok entry
          /\ entry.["video_id"] = item.["id"].
Proof.
  apply (trending_one_entry_per_item
           (answering (JDict [("items", JList chart)])) "US" 3%Z w0
           chart_entries
           (after w0 (YouTubeAPI.trending_request "US" 3) [])).
  reflexivity.
Defined.

Lemma search_loop_video_ids (items : list json) :
  forall shorts result,
    YouTubeAPI.search_loop items shorts = Ok result ->
    exists out,
      result = (shorts ++ out)%list
      /\ map video_id_field out
         = map YouTubeAPI.video_id_of (filter resolvable items).
Proof.
  induction items as [| item items IH]; intros shorts result H.
  - cbn in H. inversion H; subst. exists [].
    split; [now rewrite app_nil_r | reflexivity].
  - cbn [YouTubeAPI.search_loop] in H.
    apply rbind_Ok in H. destruct H as (v & Hv & H).
    cbn [filter]. unfold resolvable at 1. rewrite Hv.
    destruct (Py.truthy v) eqn:Ht.
    + apply rbind_Ok in H. destruct H as (short & Hs & H).
      apply IH in H. destruct H as (out & -> & Hids).
      exists (short :: out). split; [now rewrite <- app_assoc |].
      cbn [map]. rewrite Hids, Hv. f_equal.
      unfold video_id_field. now apply short_data_video_id with (item := item).
    + apply IH in H. exact H.
Qed.

(** X10: the identifiers a search returns are the truthy [videoId]s of the
    upstream items, one entry each, in upstream order: an item whose
    [videoId] is missing, null or empty contributes nothing, and no
    identifier is invented, changed or repeated. *)
Theorem search_ids_are_upstream_video_ids :
  forall upstream q n w out w',
    YouTubeAPI.search_shorts upstream q n w = (Ok out, w') ->
    exists response items,
      upstream (length (calls w)) (YouTubeAPI.search_request q n) = Ok response
      /\ YouTubeAPI.response_items response = Ok items
      /\ map video_id_field out
         = map YouTubeAPI.video_id_of (filter resolvable items)
      /\ length out = length (filter resolvable items).
Proof.
  intros upstream q n w out w' H.
  rewrite search_shorts_run in H.
  destruct (rbind _ _) as [out' | e] eqn:Hrun; inversion H; subst.
  apply rbind_Ok in Hrun. destruct Hrun as (response & Hup & Hn).
  unfold YouTubeAPI.search_normalize in Hn.
  apply rbind_Ok in Hn. destruct Hn as (items & Hitems & Hloop).
  apply search_loop_video_ids in Hloop.
  destruct Hloop as (out' & -> & Hids). cbn [app].
  exists response, items. repeat split; try assumption.
  apply (f_equal (@length _)) in Hids. now rewrite !length_map in Hids.
Qed.

Lemma search_ids_are_upstream_video_ids_witness :
  exists response items,
    answering cats_response (length (calls w0))
              (YouTubeAPI.search_request "cats" 5) = Ok response
    /\ YouTubeAPI.response_items response = Ok items
    /\ map video_id_field cats_entries
       = map YouTubeAPI.video_id_of (filter resolvable items)
    /\ length cats_entries = length (filter resolvable items).
Proof.
  apply (search_ids_are_upstream_video_ids
           (answering cats_response) "cats" 5%Z w0 cats_entries
           (after w0 (YouTubeAPI.search_request "cats" 5) [])).
  reflexivity.
Defined.

(** ** Responses without items *)

Lemma response_items_none (d : list (string * json)) :
  Py.lookup "items" d = None \/ Py.lookup "items" d = Some (JList []) ->
  YouTubeAPI.response_items (JDict d) = Ok [].
Proof.
  intros [H | H]; unfold YouTubeAPI.response_items; cbn [Py.get rbind];
    unfold Py.dict_get; rewrite H; reflexivity.
Qed.

(** X11: an upstream response object with no [items] key, or with an empty item
    list, is no failure for a listing: a search (with a non-empty [q]) and a
    trending request are answered HTTP 200 with an empty data list, while a
    detail lookup on such a response is answered HTTP 404. *)
Theorem no_items_is_empty_success :
  forall upstream py_int w (d : list (string * json)),
    Py.lookup "items" d = None \/ Py.lookup "items" d = Some (JList []) ->
    (forall args q,
        Main.args_get args "q" = Some q -> q <> "" ->
        upstream (length (calls w))
                 (YouTubeAPI.search_request
                    q (Main.args_get_int py_int args "max_results" 10))
          = Ok (JDict d) ->
        fst (Main.search_shorts upstream py_int args w)
        = Ok (Main.mkResponse (Main.success_envelope (JList [])) 200))
    /\ (forall args,
           upstream (length (calls w))
                    (YouTubeAPI.trending_request
                       (Main.args_get_default args "region" "US")
                       (Main.args_get_int py_int args "max_results" 10))
             = Ok (JDict d) ->
           fst (Main.get_trending_shorts upstream py_int args w)
           = Ok (Main.mkResponse (Main.success_envelope (JList [])) 200))
    /\ (forall video_id,
           upstream (length (calls w)) (YouTubeAPI.details_request video_id)
             = Ok (JDict d) ->
           fst (Main.get_short_details upstream video_id w)
           = Ok (Main.mkResponse (Main.error_envelope "Video not found") 404)).
Proof.
  intros upstream py_int w d Hnone. repeat apply conj.
  - intros args q Hq Hne Hup. unfold Main.search_shorts, try_except, bind.
    rewrite Hq. destruct q as [| c q]; [contradiction |].
    rewrite search_shorts_run, Hup. cbn [rbind].
    unfold YouTubeAPI.search_normalize.
    rewrite (response_items_none d Hnone). reflexivity.
  - intros args Hup. unfold Main.get_trending_shorts, try_except, bind.
    rewrite get_trending_shorts_run, Hup. cbn [rbind].
    unfold YouTubeAPI.trending_normalize.
    rewrite (response_items_none d Hnone). reflexivity.
  - intros video_id Hup. unfold Main.get_short_details, try_except, bind.
    rewrite get_video_details_run, Hup. cbn [rbind].
    unfold YouTubeAPI.details_normalize. cbn [Py.get rbind].
    unfold Py.dict_get. destruct Hnone as [H | H]; rewrite H; reflexivity.
Qed.

Lemma no_items_is_empty_success_witness :
  fst (Main.search_shorts (answering (JDict [("kind", JStr "youtube#list")]))
                          Py.int_ascii [("q", "cats")] w0)
  = Ok (Main.mkResponse (Main.success_envelope (JList [])) 200)
  /\ fst (Main.get_trending_shorts
            (answering (JDict [("kind", JStr "youtube#list")]))
            Py.int_ascii [] w0)
     = Ok (Main.mkResponse (Main.success_envelope (JList [])) 200)
  /\ fst (Main.get_short_details
            (answering (JDict [("kind", JStr "youtube#list")])) "a1" w0)
     = Ok (Main.mkResponse (Main.error_envelope "Video not found") 404).
Proof.
  destruct (no_items_is_empty_success
              (answering (JDict [("kind", JStr "youtube#list")]))
              Py.int_ascii w0 [("kind", JStr "youtube#list")]
              (or_introl eq_refl)) as (Hs & Ht & Hd).
  split; [| split].
  - apply (Hs [("q", "cats")] "cats");
      [reflexivity | discriminate | reflexivity].
  - apply (Ht []). reflexivity.
  - apply (Hd "a1"). reflexivity.
Defined.

(** X12: a response whose [items] is null is told apart from one without
    [items]: the listings fail on it (the default of [get] applies to a
    missing key only, and null cannot be iterated), so a search and a
    trending request are answered HTTP 500 with Python's message, while the
    detail lookup still answers HTTP 404. *)
Theorem null_items_fails_listings :
  forall upstream py_int w (d : list (string * json)),
    Py.lookup "items" d = Some JNull ->
    (forall args q,
        Main.args_get args "q" = Some q -> q <> "" ->
        upstream (length (calls w))
                 (YouTubeAPI.search_request
                    q (Main.args_get_int py_int args "max_results" 10))
          = Ok (JDict d) ->
        fst (Main.search_shorts upstream py_int args w)
        = Ok (Main.mkResponse
                (Main.error_envelope "'NoneType' object is not iterable") 500))
    /\ (forall args,
           upstream (length (calls w))
                    (YouTubeAPI.trending_request
                       (Main.args_get_default args "region" "US")
                       (Main.args_get_int py_int args "max_results" 10))
             = Ok (JDict d) ->
           fst (Main.get_trending_shorts upstream py_int args w)
           = Ok (Main.mkResponse
                   (Main.error_envelope "'NoneType' object is not iterable")
                   500))
    /\ (forall video_id,
           upstream (length (calls w)) (YouTubeAPI.details_request video_id)
             = Ok (JDict d) ->
           fst (Main.get_short_details upstream video_id w)
           = Ok (Main.mkResponse (Main.error_envelope "Video not found") 404)).
Proof.
  intros upstream py_int w d Hnull.
  assert (Hitems : YouTubeAPI.response_items (JDict d)
                   = Raise (TypeError "'NoneType' object is not iterable")).
  { unfold YouTubeAPI.response_items. cbn [Py.get rbind].
    unfold Py.dict_get. rewrite Hnull. reflexivity. }
  repeat apply conj.
  - intros args q Hq Hne Hup. unfold Main.search_shorts, try_except, bind.
    rewrite Hq. destruct q as [| c q]; [contradiction |].
    rewrite search_shorts_run, Hup. cbn [rbind].
    unfold YouTubeAPI.search_normalize. rewrite Hitems. reflexivity.
  - intros args Hup. unfold Main.get_trending_shorts, try_except, bind.
    rewrite get_trending_shorts_run, Hup. cbn [rbind].
    unfold YouTubeAPI.trending_normalize. rewrite Hitems. reflexivity.
  - intros video_id Hup. unfold Main.get_short_details, try_except, bind.
    rewrite get_video_details_run, Hup. cbn [rbind].
    unfold YouTubeAPI.details_normalize. cbn [Py.get rbind].
    unfold Py.dict_get. rewrite Hnull. reflexivity.
Qed.

Lemma null_items_fails_listings_witness :
  fst (Main.search_shorts (answering (JDict [("items", JNull)]))
                          Py.int_ascii [("q", "cats")] w0)
  = Ok (Main.mkResponse
          (Main.error_envelope "'NoneType' object is not iterable") 500)
  /\ fst (Main.get_short_details (answering (JDict [("items", JNull)]))
                                 "a1" w0)
     = Ok (Main.mkResponse (Main.error_envelope "Video not found") 404).
Proof.
  destruct (null_items_fails_listings
              (answering (JDict [("items", JNull)]))
              Py.int_ascii w0 [("items", JNull)] eq_refl) as (Hs & _ & Hd).
  split.
  - apply (Hs [("q", "cats")] "cats");
      [reflexivity | discriminate | reflexivity].
  - apply (Hd "a1"). reflexivity.
Defined.
